(** * DIPA chatbot (streamlit_app.py): a shallow embedding and its properties

    The program is a Streamlit script.  Its own logic is
    - [run_with_source], the formatter of the web-search tool,
    - [load_pdf_files], the builder of the PDF retrieval tool,
    - [get_session_history], the lazily filled store of chat histories,
    - the turn block of [main], which calls the agent executor and records
      the exchange.
    The language model, the PDF parser, the text splitter, the vector store
    and the search provider are third-party services: they enter the model
    as the fields of a [world] record, each with the result type the
    script relies on (a value or a raised exception). *)

From Stdlib Require Import String Ascii List NArith Lia.
From stdpp Require Import base option gmap list strings.
Import ListNotations.
Local Open Scope string_scope.

(** ** Python values the script manipulates *)

Module Py.

(** Exceptions raised by the collaborators.  The script never names an
    exception class; the constructors only record where a failure
    comes from. *)
Inductive exn : Type :=
| SearchError (msg : string)
| IngestError (msg : string)
| EmbeddingError (msg : string)
| AgentError (msg : string)
| KeyError (key : string).

(** The outcome of a call: a value, or a raised exception. *)
Inductive exc (A : Type) : Type :=
| Return (a : A)
| Raise (e : exn).
Arguments Return {A} a.
Arguments Raise {A} e.

Definition bind {A B} (k : A → exc B) (c : exc A) : exc B :=
  match c with
  | Return a => k a
  | Raise e => Raise e
  end.

(** [str(x)] for [x] the result of [dict.get]: a string, or [None]. *)
Definition str (v : option string) : string :=
  match v with
  | Some s => s
  | None => "None"
  end.

(** Truth value of the result of [dict.get]: [None] and the empty string
    are false. *)
Definition truthy (v : option string) : bool :=
  match v with
  | Some EmptyString => false
  | Some _ => true
  | None => false
  end.

(** [sep.join(l)] *)
Definition join (sep : string) (l : list string) : string :=
  String.concat sep l.

(** [d[k]] on a dictionary: [KeyError] when the key is missing. *)
Definition getitem {V} (d : gmap string V) (k : string) : exc V :=
  match d !! k with
  | Some v => Return v
  | None => Raise (KeyError k)
  end.

(** [s in t] on strings: [s] occurs in [t]. *)
Definition occurs (s t : string) : Prop :=
  ∃ pre post, t = pre ++ s ++ post.

End Py.
Import Py.

(** Sequencing of calls that may raise: [x ← c; k] is stdpp's notation
    for [mbind]. *)
#[global] Instance exc_ret : MRet exc := @Return.
#[global] Instance exc_bind : MBind exc := @Py.bind.

(** ** The web-search adapter ([search_web], lines 20-42) *)

(** One organic result: a dictionary from field names to strings. *)
Abbreviation result := (gmap string string).

(** The provider's answer: a dictionary holding, under
    ["organic_results"], the ordered list of results. *)
Abbreviation results := (gmap string (list result)).

Definition LF : string := String (ascii_of_nat 10) EmptyString.

Definition no_results : string := "검색 결과가 없습니다.".

(** The body of the [for] loop: the line appended for one result. *)
Definition format_result (r : result) : string :=
  let title := r !! "title" in
  let link := r !! "link" in
  let source := r !! "source" in
  let snippet := r !! "snippet" in
  if truthy link then
    "- [" ++ str title ++ "](" ++ str link ++ ") (" ++ str source ++ ")"
      ++ LF ++ "  " ++ str snippet
  else
    "- " ++ str title ++ " (출처: " ++ str source ++ ")"
      ++ LF ++ "  " ++ str snippet.

(** What [run_with_source] computes from the provider's answer. *)
Definition format_results (res : results) : string :=
  let organic := default [] (res !! "organic_results") in
  let formatted := map format_result (take 5 organic) in
  match formatted with
  | [] => no_results
  | _ => join LF formatted
  end.

(** [run_with_source]: [search] stands for [search.results]. *)
Definition run_with_source (search : string → exc results) (query : string)
  : exc string :=
  res ← search query ;
  Return (format_results res).

(** The callable-tool wrapper of [langchain.agents.Tool]. *)
Record Tool := mkTool {
  name : string;
  func : string → exc string;
  description : string
}.

Definition web_search_description : string :=
  "Use it to search for real-time news and web information. Results are returned in the format of title + source + link + brief summary (snippet).".

(** [search_web]: [SerpAPIWrapper] is the constructor call, which may
    itself raise. *)
Definition search_web (SerpAPIWrapper : exc (string → exc results)) : exc Tool :=
  search ← SerpAPIWrapper ;
  Return (mkTool "web_search" (run_with_source search) web_search_description).

(** ** The document indexer ([load_pdf_files], lines 45-67) *)

(** A parsed page, as [PyPDFLoader.load] returns them. *)
Record Document := mkDocument {
  page_content : string;
  source : string
}.

(** [RecursiveCharacterTextSplitter(chunk_size=.., chunk_overlap=..)] *)
Record RecursiveCharacterTextSplitter := mkSplitter {
  chunk_size : nat;
  chunk_overlap : nat
}.

(** The splitter the script constructs on line 56. *)
Definition text_splitter : RecursiveCharacterTextSplitter :=
  {| chunk_size := 1000; chunk_overlap := 200 |}.

(** The third-party collaborators of one run of the script. *)
Record world := mkWorld {
  (** [SerpAPIWrapper()], giving [search.results] *)
  SerpAPIWrapper : exc (string → exc results);
  (** [PyPDFLoader(path).load()] on the bytes of one upload *)
  PyPDFLoader_load : string → exc (list Document);
  (** [text_splitter.split_documents] *)
  split_documents : RecursiveCharacterTextSplitter → list Document → list Document;
  (** [FAISS.from_documents(docs, OpenAIEmbeddings()).as_retriever()], as
      the query function the retriever tool exposes *)
  FAISS_from_documents : list Document → exc (string → exc string);
  (** [AgentExecutor(agent, tools)], called on the input dictionary *)
  AgentExecutor : list Tool → gmap string string → exc (gmap string string)
}.

Definition pdf_search_description : string :=
  "Use this tool to search information from the pdf document".

(** The [for] loop of lines 47-54, with its accumulator. *)
Fixpoint load_loop (w : world) (uploaded_files : list string)
    (all_documents : list Document) : exc (list Document) :=
  match uploaded_files with
  | [] => Return all_documents
  | uploaded_file :: rest =>
      documents ← PyPDFLoader_load w uploaded_file ;
      load_loop w rest (all_documents ++ documents)
  end.

Definition load_pdf_files (w : world) (uploaded_files : list string) : exc Tool :=
  all_documents ← load_loop w uploaded_files [] ;
  let split_docs := split_documents w text_splitter all_documents in
  retriever ← FAISS_from_documents w split_docs ;
  Return (mkTool "pdf_search" retriever pdf_search_description).

(** ** [str] of a list of dictionaries (line 164)

    Strings are modelled as their UTF-8 bytes (a lone surrogate as the
    three bytes its number gives).  [repr] of a string escapes the quote
    it chose, the backslash, the ASCII control characters and every other
    character that Python does not count as printable; printable
    characters beyond ASCII (Korean text, emoji) are copied. *)

Module Unicode.

Definition byte (c : ascii) : N := N_of_ascii c.

Definition between (lo hi n : N) : bool := N.leb lo n && N.leb n hi.

(** A continuation byte of a multi-byte sequence. *)
Definition continuation (c : ascii) : bool := between 128 191 (byte c).

(** The code point of the well-formed multi-byte sequence at the head of
    [s], with the number of its bytes. *)
Definition decode (s : string) : option (N * nat) :=
  match s with
  | String b0 (String b1 rest1) =>
      if between 194 223 (byte b0) then
        if continuation b1
        then Some (((byte b0 - 192) * 64 + (byte b1 - 128))%N, 2%nat)
        else None
      else
        match rest1 with
        | String b2 rest2 =>
            if between 224 239 (byte b0) then
              let cp := ((byte b0 - 224) * 4096 + (byte b1 - 128) * 64
                         + (byte b2 - 128))%N in
              if continuation b1 && continuation b2 && N.leb 2048 cp
              then Some (cp, 3%nat) else None
            else
              match rest2 with
              | String b3 _ =>
                  let cp := ((byte b0 - 240) * 262144 + (byte b1 - 128) * 4096
                             + (byte b2 - 128) * 64 + (byte b3 - 128))%N in
                  if between 240 244 (byte b0)
                     && continuation b1 && continuation b2 && continuation b3
                     && between 65536 1114111 cp
                  then Some (cp, 4%nat) else None
              | EmptyString => None
              end
        | EmptyString => None
        end
  | _ => None
  end.

(** The bytes of a code point. *)
Definition encode (cp : N) : string :=
  if N.ltb cp 128 then String (ascii_of_N cp) ""
  else if N.ltb cp 2048 then
    String (ascii_of_N (192 + cp / 64))
      (String (ascii_of_N (128 + cp mod 64)) "")
  else if N.ltb cp 65536 then
    String (ascii_of_N (224 + cp / 4096))
      (String (ascii_of_N (128 + (cp / 64) mod 64))
         (String (ascii_of_N (128 + cp mod 64)) ""))
  else
    String (ascii_of_N (240 + cp / 262144))
      (String (ascii_of_N (128 + (cp / 4096) mod 64))
         (String (ascii_of_N (128 + (cp / 64) mod 64))
            (String (ascii_of_N (128 + cp mod 64)) ""))).

(** The code points from 128 on for which [str.isprintable] is false, as
    intervals: the general categories Cc, Cf, Cs, Co, Cn, Zl, Zp and Zs
    of the Unicode 14.0 database that CPython 3.11 carries. *)
Definition nonprintable : list (N * N) :=
  [(128, 160); (173, 173); (888, 889); (896, 899); (907, 907); (909, 909);
   (930, 930); (1328, 1328); (1367, 1368); (1419, 1420); (1424, 1424);
   (1480, 1487); (1515, 1518); (1525, 1541); (1564, 1564); (1757, 1757);
   (1806, 1807); (1867, 1868); (1970, 1983); (2043, 2044); (2094, 2095);
   (2111, 2111); (2140, 2141); (2143, 2143); (2155, 2159); (2191, 2199);
   (2274, 2274); (2436, 2436); (2445, 2446); (2449, 2450); (2473, 2473);
   (2481, 2481); (2483, 2485); (2490, 2491); (2501, 2502); (2505, 2506);
   (2511, 2518); (2520, 2523); (2526, 2526); (2532, 2533); (2559, 2560);
   (2564, 2564); (2571, 2574); (2577, 2578); (2601, 2601); (2609, 2609);
   (2612, 2612); (2615, 2615); (2618, 2619); (2621, 2621); (2627, 2630);
   (2633, 2634); (2638, 2640); (2642, 2648); (2653, 2653); (2655, 2661);
   (2679, 2688); (2692, 2692); (2702, 2702); (2706, 2706); (2729, 2729);
   (2737, 2737); (2740, 2740); (2746, 2747); (2758, 2758); (2762, 2762);
   (2766, 2767); (2769, 2783); (2788, 2789); (2802, 2808); (2816, 2816);
   (2820, 2820); (2829, 2830); (2833, 2834); (2857, 2857); (2865, 2865);
   (2868, 2868); (2874, 2875); (2885, 2886); (2889, 2890); (2894, 2900);
   (2904, 2907); (2910, 2910); (2916, 2917); (2936, 2945); (2948, 2948);
   (2955, 2957); (2961, 2961); (2966, 2968); (2971, 2971); (2973, 2973);
   (2976, 2978); (2981, 2983); (2987, 2989); (3002, 3005); (3011, 3013);
   (3017, 3017); (3022, 3023); (3025, 3030); (3032, 3045); (3067, 3071);
   (3085, 3085); (3089, 3089); (3113, 3113); (3130, 3131); (3141, 3141);
   (3145, 3145); (3150, 3156); (3159, 3159); (3163, 3164); (3166, 3167);
   (3172, 3173); (3184, 3190); (3213, 3213); (3217, 3217); (3241, 3241);
   (3252, 3252); (3258, 3259); (3269, 3269); (3273, 3273); (3278, 3284);
   (3287, 3292); (3295, 3295); (3300, 3301); (3312, 3312); (3315, 3327);
   (3341, 3341); (3345, 3345); (3397, 3397); (3401, 3401); (3408, 3411);
   (3428, 3429); (3456, 3456); (3460, 3460); (3479, 3481); (3506, 3506);
   (3516, 3516); (3518, 3519); (3527, 3529); (3531, 3534); (3541, 3541);
   (3543, 3543); (3552, 3557); (3568, 3569); (3573, 3584); (3643, 3646);
   (3676, 3712); (3715, 3715); (3717, 3717); (3723, 3723); (3748, 3748);
   (3750, 3750); (3774, 3775); (3781, 3781); (3783, 3783); (3790, 3791);
   (3802, 3803); (3808, 3839); (3912, 3912); (3949, 3952); (3992, 3992);
   (4029, 4029); (4045, 4045); (4059, 4095); (4294, 4294); (4296, 4300);
   (4302, 4303); (4681, 4681); (4686, 4687); (4695, 4695); (4697, 4697);
   (4702, 4703); (4745, 4745); (4750, 4751); (4785, 4785); (4790, 4791);
   (4799, 4799); (4801, 4801); (4806, 4807); (4823, 4823); (4881, 4881);
   (4886, 4887); (4955, 4956); (4989, 4991); (5018, 5023); (5110, 5111);
   (5118, 5119); (5760, 5760); (5789, 5791); (5881, 5887); (5910, 5918);
   (5943, 5951); (5972, 5983); (5997, 5997); (6001, 6001); (6004, 6015);
   (6110, 6111); (6122, 6127); (6138, 6143); (6158, 6158); (6170, 6175);
   (6265, 6271); (6315, 6319); (6390, 6399); (6431, 6431); (6444, 6447);
   (6460, 6463); (6465, 6467); (6510, 6511); (6517, 6527); (6572, 6575);
   (6602, 6607); (6619, 6621); (6684, 6685); (6751, 6751); (6781, 6782);
   (6794, 6799); (6810, 6815); (6830, 6831); (6863, 6911); (6989, 6991);
   (7039, 7039); (7156, 7163); (7224, 7226); (7242, 7244); (7305, 7311);
   (7355, 7356); (7368, 7375); (7419, 7423); (7958, 7959); (7966, 7967);
   (8006, 8007); (8014, 8015); (8024, 8024); (8026, 8026); (8028, 8028);
   (8030, 8030); (8062, 8063); (8117, 8117); (8133, 8133); (8148, 8149);
   (8156, 8156); (8176, 8177); (8181, 8181); (8191, 8207); (8232, 8239);
   (8287, 8303); (8306, 8307); (8335, 8335); (8349, 8351); (8385, 8399);
   (8433, 8447); (8588, 8591); (9255, 9279); (9291, 9311); (11124, 11125);
   (11158, 11158); (11508, 11512); (11558, 11558); (11560, 11564);
   (11566, 11567); (11624, 11630); (11633, 11646); (11671, 11679);
   (11687, 11687); (11695, 11695); (11703, 11703); (11711, 11711);
   (11719, 11719); (11727, 11727); (11735, 11735); (11743, 11743);
   (11870, 11903); (11930, 11930); (12020, 12031); (12246, 12271);
   (12284, 12288); (12352, 12352); (12439, 12440); (12544, 12548);
   (12592, 12592); (12687, 12687); (12772, 12783); (12831, 12831);
   (42125, 42127); (42183, 42191); (42540, 42559); (42744, 42751);
   (42955, 42959); (42962, 42962); (42964, 42964); (42970, 42993);
   (43053, 43055); (43066, 43071); (43128, 43135); (43206, 43213);
   (43226, 43231); (43348, 43358); (43389, 43391); (43470, 43470);
   (43482, 43485); (43519, 43519); (43575, 43583); (43598, 43599);
   (43610, 43611); (43715, 43738); (43767, 43776); (43783, 43784);
   (43791, 43792); (43799, 43807); (43815, 43815); (43823, 43823);
   (43884, 43887); (44014, 44015); (44026, 44031); (55204, 55215);
   (55239, 55242); (55292, 63743); (64110, 64111); (64218, 64255);
   (64263, 64274); (64280, 64284); (64311, 64311); (64317, 64317);
   (64319, 64319); (64322, 64322); (64325, 64325); (64451, 64466);
   (64912, 64913); (64968, 64974); (64976, 65007); (65050, 65055);
   (65107, 65107); (65127, 65127); (65132, 65135); (65141, 65141);
   (65277, 65280); (65471, 65473); (65480, 65481); (65488, 65489);
   (65496, 65497); (65501, 65503); (65511, 65511); (65519, 65531);
   (65534, 65535); (65548, 65548); (65575, 65575); (65595, 65595);
   (65598, 65598); (65614, 65615); (65630, 65663); (65787, 65791);
   (65795, 65798); (65844, 65846); (65935, 65935); (65949, 65951);
   (65953, 65999); (66046, 66175); (66205, 66207); (66257, 66271);
   (66300, 66303); (66340, 66348); (66379, 66383); (66427, 66431);
   (66462, 66462); (66500, 66503); (66518, 66559); (66718, 66719);
   (66730, 66735); (66772, 66775); (66812, 66815); (66856, 66863);
   (66916, 66926); (66939, 66939); (66955, 66955); (66963, 66963);
   (66966, 66966); (66978, 66978); (66994, 66994); (67002, 67002);
   (67005, 67071); (67383, 67391); (67414, 67423); (67432, 67455);
   (67462, 67462); (67505, 67505); (67515, 67583); (67590, 67591);
   (67593, 67593); (67638, 67638); (67641, 67643); (67645, 67646);
   (67670, 67670); (67743, 67750); (67760, 67807); (67827, 67827);
   (67830, 67834); (67868, 67870); (67898, 67902); (67904, 67967);
   (68024, 68027); (68048, 68049); (68100, 68100); (68103, 68107);
   (68116, 68116); (68120, 68120); (68150, 68151); (68155, 68158);
   (68169, 68175); (68185, 68191); (68256, 68287); (68327, 68330);
   (68343, 68351); (68406, 68408); (68438, 68439); (68467, 68471);
   (68498, 68504); (68509, 68520); (68528, 68607); (68681, 68735);
   (68787, 68799); (68851, 68857); (68904, 68911); (68922, 69215);
   (69247, 69247); (69290, 69290); (69294, 69295); (69298, 69375);
   (69416, 69423); (69466, 69487); (69514, 69551); (69580, 69599);
   (69623, 69631); (69710, 69713); (69750, 69758); (69821, 69821);
   (69827, 69839); (69865, 69871); (69882, 69887); (69941, 69941);
   (69960, 69967); (70007, 70015); (70112, 70112); (70133, 70143);
   (70162, 70162); (70207, 70271); (70279, 70279); (70281, 70281);
   (70286, 70286); (70302, 70302); (70314, 70319); (70379, 70383);
   (70394, 70399); (70404, 70404); (70413, 70414); (70417, 70418);
   (70441, 70441); (70449, 70449); (70452, 70452); (70458, 70458);
   (70469, 70470); (70473, 70474); (70478, 70479); (70481, 70486);
   (70488, 70492); (70500, 70501); (70509, 70511); (70517, 70655);
   (70748, 70748); (70754, 70783); (70856, 70863); (70874, 71039);
   (71094, 71095); (71134, 71167); (71237, 71247); (71258, 71263);
   (71277, 71295); (71354, 71359); (71370, 71423); (71451, 71452);
   (71468, 71471); (71495, 71679); (71740, 71839); (71923, 71934);
   (71943, 71944); (71946, 71947); (71956, 71956); (71959, 71959);
   (71990, 71990); (71993, 71994); (72007, 72015); (72026, 72095);
   (72104, 72105); (72152, 72153); (72165, 72191); (72264, 72271);
   (72355, 72367); (72441, 72703); (72713, 72713); (72759, 72759);
   (72774, 72783); (72813, 72815); (72848, 72849); (72872, 72872);
   (72887, 72959); (72967, 72967); (72970, 72970); (73015, 73017);
   (73019, 73019); (73022, 73022); (73032, 73039); (73050, 73055);
   (73062, 73062); (73065, 73065); (73103, 73103); (73106, 73106);
   (73113, 73119); (73130, 73439); (73465, 73647); (73649, 73663);
   (73714, 73726); (74650, 74751); (74863, 74863); (74869, 74879);
   (75076, 77711); (77811, 77823); (78895, 82943); (83527, 92159);
   (92729, 92735); (92767, 92767); (92778, 92781); (92863, 92863);
   (92874, 92879); (92910, 92911); (92918, 92927); (92998, 93007);
   (93018, 93018); (93026, 93026); (93048, 93052); (93072, 93759);
   (93851, 93951); (94027, 94030); (94088, 94094); (94112, 94175);
   (94181, 94191); (94194, 94207); (100344, 100351); (101590, 101631);
   (101641, 110575); (110580, 110580); (110588, 110588); (110591, 110591);
   (110883, 110927); (110931, 110947); (110952, 110959); (111356, 113663);
   (113771, 113775); (113789, 113791); (113801, 113807); (113818, 113819);
   (113824, 118527); (118574, 118575); (118599, 118607); (118724, 118783);
   (119030, 119039); (119079, 119080); (119155, 119162); (119275, 119295);
   (119366, 119519); (119540, 119551); (119639, 119647); (119673, 119807);
   (119893, 119893); (119965, 119965); (119968, 119969); (119971, 119972);
   (119975, 119976); (119981, 119981); (119994, 119994); (119996, 119996);
   (120004, 120004); (120070, 120070); (120075, 120076); (120085, 120085);
   (120093, 120093); (120122, 120122); (120127, 120127); (120133, 120133);
   (120135, 120137); (120145, 120145); (120486, 120487); (120780, 120781);
   (121484, 121498); (121504, 121504); (121520, 122623); (122655, 122879);
   (122887, 122887); (122905, 122906); (122914, 122914); (122917, 122917);
   (122923, 123135); (123181, 123183); (123198, 123199); (123210, 123213);
   (123216, 123535); (123567, 123583); (123642, 123646); (123648, 124895);
   (124903, 124903); (124908, 124908); (124911, 124911); (124927, 124927);
   (125125, 125126); (125143, 125183); (125260, 125263); (125274, 125277);
   (125280, 126064); (126133, 126208); (126270, 126463); (126468, 126468);
   (126496, 126496); (126499, 126499); (126501, 126502); (126504, 126504);
   (126515, 126515); (126520, 126520); (126522, 126522); (126524, 126529);
   (126531, 126534); (126536, 126536); (126538, 126538); (126540, 126540);
   (126544, 126544); (126547, 126547); (126549, 126550); (126552, 126552);
   (126554, 126554); (126556, 126556); (126558, 126558); (126560, 126560);
   (126563, 126563); (126565, 126566); (126571, 126571); (126579, 126579);
   (126584, 126584); (126589, 126589); (126591, 126591); (126602, 126602);
   (126620, 126624); (126628, 126628); (126634, 126634); (126652, 126703);
   (126706, 126975); (127020, 127023); (127124, 127135); (127151, 127152);
   (127168, 127168); (127184, 127184); (127222, 127231); (127406, 127461);
   (127491, 127503); (127548, 127551); (127561, 127567); (127570, 127583);
   (127590, 127743); (128728, 128732); (128749, 128751); (128765, 128767);
   (128884, 128895); (128985, 128991); (129004, 129007); (129009, 129023);
   (129036, 129039); (129096, 129103); (129114, 129119); (129160, 129167);
   (129198, 129199); (129202, 129279); (129620, 129631); (129646, 129647);
   (129653, 129655); (129661, 129663); (129671, 129679); (129709, 129711);
   (129723, 129727); (129734, 129743); (129754, 129759); (129768, 129775);
   (129783, 129791); (129939, 129939); (129995, 130031); (130042, 131071);
   (173792, 173823); (177977, 177983); (178206, 178207); (183970, 183983);
   (191457, 194559); (195102, 196607); (201547, 917759); (918000, 1114111)]%N.

Definition isprintable (cp : N) : bool :=
  negb (existsb (λ r, between r.1 r.2 cp) nonprintable).

End Unicode.

Module Repr.

Definition squote : ascii := ascii_of_nat 39.
Definition dquote : ascii := ascii_of_nat 34.
Definition backslash : ascii := ascii_of_nat 92.

Fixpoint contains_char (c : ascii) (s : string) : bool :=
  match s with
  | EmptyString => false
  | String a rest => if Ascii.eqb a c then true else contains_char c rest
  end.

(** The quote [repr] wraps the string in: double quotes only when the
    string has a single quote and no double quote. *)
Definition quote_of (s : string) : ascii :=
  if contains_char squote s && negb (contains_char dquote s)
  then dquote else squote.

Definition hex_digit (n : nat) : ascii :=
  nth n (list_ascii_of_string "0123456789abcdef") "0"%char.

(** The rendering of an ASCII character. *)
Definition repr_char (quote : ascii) (c : ascii) : string :=
  let n := nat_of_ascii c in
  if Ascii.eqb c quote || Ascii.eqb c backslash then
    String backslash (String c EmptyString)
  else if Nat.eqb n 9 then String backslash "t"
  else if Nat.eqb n 10 then String backslash "n"
  else if Nat.eqb n 13 then String backslash "r"
  else if Nat.ltb n 32 || Nat.eqb n 127 then
    String backslash
      (String "x" (String (hex_digit (n / 16)) (String (hex_digit (n mod 16)) EmptyString)))
  else String c EmptyString.

(** [digits] lowercase hexadecimal digits of [n], the highest first. *)
Fixpoint hex (digits : nat) (n : N) : string :=
  match digits with
  | O => EmptyString
  | S d => String (hex_digit (N.to_nat ((n / 16 ^ N.of_nat d) mod 16))) (hex d n)
  end.

(** The escape of a non-printable character beyond ASCII. *)
Definition escape (cp : N) : string :=
  if N.leb cp 255 then String backslash (String "x" (hex 2 cp))
  else if N.leb cp 65535 then String backslash (String "u" (hex 4 cp))
  else String backslash (String "U" (hex 8 cp)).

(** The characters of the literal between its quotes.  [skip] counts the
    bytes still to pass over of a character already rendered.  A byte
    from 128 on that begins no well-formed sequence stands for no
    character of a Python string; it is copied. *)
Fixpoint repr_body (quote : ascii) (skip : nat) (s : string) : string :=
  match s with
  | EmptyString => EmptyString
  | String c rest =>
      match skip with
      | S k => repr_body quote k rest
      | O =>
          if N.ltb (Unicode.byte c) 128 then
            repr_char quote c ++ repr_body quote 0 rest
          else
            match Unicode.decode s with
            | Some (cp, len) =>
                if Unicode.isprintable cp
                then String c (repr_body quote 0 rest)
                else escape cp ++ repr_body quote (len - 1) rest
            | None => String c (repr_body quote 0 rest)
            end
      end
  end.

(** [repr(s)] for a string [s] *)
Definition repr_str (s : string) : string :=
  let q := quote_of s in
  String q (repr_body q 0 s ++ String q EmptyString).

(** [repr(d)] for a dictionary with string keys and values, given as
    its items in insertion order *)
Definition repr_dict (d : list (string * string)) : string :=
  "{" ++ join ", " (map (λ kv, repr_str kv.1 ++ ": " ++ repr_str kv.2) d) ++ "}".

(** [str(l)] for a list of such dictionaries *)
Definition str_list (l : list (list (string * string))) : string :=
  "[" ++ join ", " (map repr_dict l) ++ "]".

End Repr.

(** ** Session memory ([get_session_history], lines 75-78) *)

(** A chat message: the dictionary [{"role": .., "content": ..}]. *)
Record Message := mkMessage {
  role : string;
  content : string
}.

(** [ChatMessageHistory]: an object holding the list [messages]. *)
Record ChatMessageHistory := mkHistory {
  messages : list Message
}.

(** [history.add_message(m)] appends to [messages]. *)
Definition add_message (h : ChatMessageHistory) (m : Message) : ChatMessageHistory :=
  {| messages := messages h ++ [m] |}.

(** References to [ChatMessageHistory] objects. *)
Abbreviation loc := positive.

(** [st.session_state] together with the objects it refers to. *)
Record state := mkState {
  (** [st.session_state["messages"]] *)
  st_messages : list Message;
  (** [st.session_state["session_history"]]: session id to object *)
  st_session_history : gmap string loc;
  (** the [ChatMessageHistory] objects allocated so far *)
  heap : gmap loc ChatMessageHistory
}.

(** The state after lines 94-97 of the first run, and after a reset. *)
Definition init_state : state :=
  {| st_messages := []; st_session_history := ∅; heap := ∅ |}.

(** Stateful computations that may raise: the state reached is kept when
    an exception is raised, as Python keeps the mutations made so far. *)
Definition St (A : Type) : Type := state → state * exc A.

Definition st_ret {A} (a : A) : St A := λ σ, (σ, Return a).

Definition st_bind {A B} (k : A → St B) (c : St A) : St B := λ σ,
  match c σ with
  | (σ', Return a) => k a σ'
  | (σ', Raise e) => (σ', Raise e)
  end.

#[global] Instance St_ret : MRet St := @st_ret.
#[global] Instance St_bind : MBind St := @st_bind.

(** A call that does not touch the state. *)
Definition lift {A} (c : exc A) : St A := λ σ, (σ, c).

(** [ChatMessageHistory()]: a new object with no messages. *)
Definition new_history : St loc := λ σ,
  let l := fresh (dom (heap σ)) in
  ({| st_messages := st_messages σ;
      st_session_history := st_session_history σ;
      heap := <[l := mkHistory []]> (heap σ) |}, Return l).

(** [st.session_state.session_history[k] = l] *)
Definition set_session (k : string) (l : loc) : St unit := λ σ,
  ({| st_messages := st_messages σ;
      st_session_history := <[k := l]> (st_session_history σ);
      heap := heap σ |}, Return ()).

(** [st.session_state.session_history[k]] *)
Definition get_session (k : string) : St loc := λ σ,
  (σ, getitem (st_session_history σ) k).

(** [k not in st.session_state.session_history] *)
Definition session_missing (k : string) : St bool := λ σ,
  (σ, Return (bool_decide (st_session_history σ !! k = None))).

Definition get_session_history (session_ids : string) : St loc :=
  missing ← session_missing session_ids ;
  _ ← (if missing : bool then
         l ← new_history ; set_session session_ids l
       else mret ()) ;
  get_session session_ids.

(** [h.messages] for the object at [l] *)
Definition read_messages (l : loc) : St (list Message) := λ σ,
  (σ, Return (default [] (messages <$> heap σ !! l))).

(** [h.add_message(m)] for the object at [l]: mutation in place *)
Definition history_add_message (l : loc) (m : Message) : St unit := λ σ,
  ({| st_messages := st_messages σ;
      st_session_history := st_session_history σ;
      heap := alter (λ h, add_message h m) l (heap σ) |}, Return ()).

(** [st.session_state["messages"].append(m)] *)
Definition messages_append (m : Message) : St unit := λ σ,
  ({| st_messages := st_messages σ ++ [m];
      st_session_history := st_session_history σ;
      heap := heap σ |}, Return ()).

(** The history a lookup of [sid] sees: the messages of the object stored
    under [sid], none for an id not seen yet. *)
Definition history_of (σ : state) (sid : string) : list Message :=
  match st_session_history σ !! sid with
  | Some l => default [] (messages <$> heap σ !! l)
  | None => []
  end.

(** The spec's [append(session_id, message)]:
    [get_session_history(session_id).add_message(message)]. *)
Definition append (sid : string) (m : Message) : St unit :=
  l ← get_session_history sid ;
  history_add_message l m.

Fixpoint append_all (sid : string) (ms : list Message) : St unit :=
  match ms with
  | [] => mret ()
  | m :: rest => _ ← append sid m ; append_all sid rest
  end.

(** Every stored session refers to an allocated object. *)
Definition store_wf (σ : state) : Prop :=
  ∀ sid l, st_session_history σ !! sid = Some l → is_Some (heap σ !! l).

(** ** One conversational turn ([chat_with_agent] and lines 158-172) *)

(** The callable [agent_executor]: input dictionary to result dictionary. *)
Abbreviation executor := (gmap string string → exc (gmap string string)).

Definition chat_with_agent (user_input : string) (agent_executor : executor)
  : exc string :=
  result ← agent_executor {[ "input" := user_input ]} ;
  getitem result "output".

Definition session_id : string := "default_session".

(** [{"role": msg['role'], "content": msg['content']}], in key order *)
Definition msg_dict (msg : Message) : list (string * string) :=
  [("role", role msg); ("content", content msg)].

(** Lines 162-166: the call of the agent, with [msgs] the value of
    [session_history.messages]. *)
Definition turn_response (agent_executor : executor) (user_input : string)
    (msgs : list Message) : exc string :=
  match msgs with
  | _ :: _ =>
      let prev_msgs := map msg_dict msgs in
      chat_with_agent
        (user_input ++ LF ++ LF ++ "Previous Messages: " ++ Repr.str_list prev_msgs)
        agent_executor
  | [] => chat_with_agent user_input agent_executor
  end.

(** Lines 159-172: the body of [if user_input:]. *)
Definition main_turn (agent_executor : executor) (user_input : string) : St unit :=
  session_history ← get_session_history session_id ;
  msgs ← read_messages session_history ;
  response ← lift (turn_response agent_executor user_input msgs) ;
  _ ← messages_append (mkMessage "user" user_input) ;
  _ ← messages_append (mkMessage "assistant" response) ;
  _ ← history_add_message session_history (mkMessage "user" user_input) ;
  history_add_message session_history (mkMessage "assistant" response).

(** ** The script ([main], lines 86-177) *)

(** What the widgets hand to one run of the script. *)
Record run_inputs := mkInputs {
  OPENAI_API : string;
  SERPAPI_API : string;
  (** the bytes of the uploaded files *)
  pdf_docs : list string;
  (** the reset button was pressed *)
  reset_clicked : bool;
  (** [st.chat_input]: the submitted text, if any *)
  user_input : option string
}.

(** What one run renders. *)
Inductive view : Type :=
| Chat (shown : list Message)
| Warning (msg : string)
| Rerun.

Definition nonempty (s : string) : bool :=
  match s with
  | EmptyString => false
  | String _ _ => true
  end.

(** [print_messages] writes every entry of [st.session_state["messages"]]. *)
Definition print_messages : St view := λ σ, (σ, Return (Chat (st_messages σ))).

(** Lines 106-109: both stores are replaced by empty ones, then the
    script is rerun. *)
Definition reset : St view := λ σ,
  ({| st_messages := [];
      st_session_history := ∅;
      heap := heap σ |}, Return Rerun).

(** Lines 117-121 *)
Definition build_tools (w : world) (pdf_docs : list string) : exc (list Tool) :=
  tools ← match pdf_docs with
          | _ :: _ => pdf_search ← load_pdf_files w pdf_docs ; Return [pdf_search]
          | [] => Return ([] : list Tool)
          end ;
  web ← search_web (SerpAPIWrapper w) ;
  Return (tools ++ [web])%list.

Definition keys_warning : string := "OpenAI API 키와 SerpAPI API 키를 입력하세요.".

Definition main (w : world) (i : run_inputs) : St view :=
  if reset_clicked i then reset
  else if nonempty (OPENAI_API i) && nonempty (SERPAPI_API i) then
    tools ← lift (build_tools w (pdf_docs i)) ;
    let agent_executor := AgentExecutor w tools in
    _ ← match user_input i with
        | Some text => if nonempty text then main_turn agent_executor text else mret ()
        | None => mret ()
        end ;
    print_messages
  else mret (Warning keys_warning).

(** One run of the script, for any inputs and any behaviour of the
    collaborators; the states the program can be in. *)
Inductive step (σ : state) : state → Prop :=
| step_main (w : world) (i : run_inputs) : step σ (main w i σ).1.

Definition reachable (σ : state) : Prop := rtc step init_state σ.

(** ** Notions used to state the properties *)

(** The state right after [get_session_history sid]: unchanged for a known
    id, one new empty object stored under [sid] otherwise. *)
Definition with_session (sid : string) (σ : state) : state :=
  match st_session_history σ !! sid with
  | Some _ => σ
  | None =>
      let l := fresh (dom (heap σ)) in
      {| st_messages := st_messages σ;
         st_session_history := <[sid := l]> (st_session_history σ);
         heap := <[l := mkHistory []]> (heap σ) |}
  end.

Definition session_loc (sid : string) (σ : state) : loc :=
  default (fresh (dom (heap σ))) (st_session_history σ !! sid).

(** [sid] is stored and refers to the object [h]. *)
Definition session_at (σ : state) (sid : string) (l : loc) (h : ChatMessageHistory) : Prop :=
  st_session_history σ !! sid = Some l ∧ heap σ !! l = Some h.

(** The input the orchestrator is to hand to the agent: the user's text
    alone when there is no history, otherwise the text followed by the
    rendering of all previous messages. *)
Definition agent_input (user_input : string) (history : list Message) : string :=
  match history with
  | [] => user_input
  | _ :: _ =>
      user_input ++ LF ++ LF ++ "Previous Messages: "
        ++ Repr.str_list (map msg_dict history)
  end.

(** The state a successful turn leaves: both messages appended to the
    display list and to the object of the session. *)
Definition after_turn (σ : state) (user_input response : string) : state :=
  let σ1 := with_session session_id σ in
  let l := session_loc session_id σ in
  {| st_messages :=
       (st_messages σ1 ++ [mkMessage "user" user_input])
         ++ [mkMessage "assistant" response];
     st_session_history := st_session_history σ1;
     heap :=
       alter (λ h, add_message h (mkMessage "assistant" response)) l
         (alter (λ h, add_message h (mkMessage "user" user_input)) l (heap σ1)) |}.

(** What every reachable state satisfies. *)
Definition single_session (σ : state) : Prop :=
  dom (st_session_history σ) ⊆ {[ session_id ]} ∧
  store_wf σ ∧
  st_messages σ = history_of σ session_id.

(** The organic results an answer of the provider carries. *)
Definition organic_of (res : results) : list result :=
  default [] (res !! "organic_results").

(** No two session ids share an object. *)
Definition store_inj (σ : state) : Prop :=
  ∀ sid1 sid2 l,
    st_session_history σ !! sid1 = Some l →
    st_session_history σ !! sid2 = Some l → sid1 = sid2.

(** The messages that a sequence of completed turns, each a user text
    with the answer it got, leaves behind. *)
Definition transcript (turns : list (string * string)) : list Message :=
  flat_map (λ t, [mkMessage "user" t.1; mkMessage "assistant" t.2]) turns.

(** Reading a string literal back: the inverse of [Repr.repr_str], used
    to show that the rendering of a history loses nothing. *)
Module Unrepr.

Definition hex_value (a : ascii) : option N :=
  let n := Unicode.byte a in
  if Unicode.between 48 57 n then Some (n - 48)%N
  else if Unicode.between 97 102 n then Some (n - 87)%N
  else None.

(** The number written by a list of hexadecimal digits. *)
Fixpoint hex_number (acc : N) (digits : list ascii) : option N :=
  match digits with
  | [] => Some acc
  | d :: rest =>
      match hex_value d with
      | Some v => hex_number (acc * 16 + v) rest
      | None => None
      end
  end.

(** The character an escape letter stands for. *)
Definition unescape (d : ascii) : ascii :=
  if Ascii.eqb d "t" then ascii_of_nat 9
  else if Ascii.eqb d "n" then ascii_of_nat 10
  else if Ascii.eqb d "r" then ascii_of_nat 13
  else d.

(** Puts [pre] in front of what was read. *)
Definition push (pre : string) (r : option (string * string)) : option (string * string) :=
  match r with
  | Some (body, tail) => Some (pre ++ body, tail)
  | None => None
  end.

(** The bytes a numeric escape stands for. *)
Definition escaped (digits : list ascii) : option string :=
  match hex_number 0 digits with
  | Some v =>
      Some (if N.ltb v 128 then String (ascii_of_N v) "" else Unicode.encode v)
  | None => None
  end.

Definition push_escaped (digits : list ascii) (r : option (string * string))
  : option (string * string) :=
  match escaped digits with
  | Some pre => push pre r
  | None => None
  end.

(** Reads the body of a literal up to its closing quote [q]; gives the
    string denoted and what follows the quote. *)
Fixpoint unrepr_body (q : ascii) (s : string) : option (string * string) :=
  match s with
  | EmptyString => None
  | String c rest =>
      if Ascii.eqb c q then Some (EmptyString, rest)
      else if Ascii.eqb c Repr.backslash then
        match rest with
        | EmptyString => None
        | String d rest' =>
            if Ascii.eqb d "x" then
              match rest' with
              | String h1 (String h2 r) =>
                  push_escaped [h1; h2] (unrepr_body q r)
              | _ => None
              end
            else if Ascii.eqb d "u" then
              match rest' with
              | String h1 (String h2 (String h3 (String h4 r))) =>
                  push_escaped [h1; h2; h3; h4] (unrepr_body q r)
              | _ => None
              end
            else if Ascii.eqb d "U" then
              match rest' with
              | String h1 (String h2 (String h3 (String h4
                  (String h5 (String h6 (String h7 (String h8 r))))))) =>
                  push_escaped [h1; h2; h3; h4; h5; h6; h7; h8] (unrepr_body q r)
              | _ => None
              end
            else push (String (unescape d) "") (unrepr_body q rest')
        end
      else push (String c "") (unrepr_body q rest)
  end.

(** Reads a literal at the head of [s]. *)
Definition unrepr_str (s : string) : option (string * string) :=
  match s with
  | EmptyString => None
  | String q rest =>
      if Ascii.eqb q Repr.squote || Ascii.eqb q Repr.dquote
      then unrepr_body q rest else None
  end.

(** [s] without its first [n] bytes. *)
Fixpoint drop_bytes (n : nat) (s : string) : string :=
  match n, s with
  | S k, String _ rest => drop_bytes k rest
  | _, _ => s
  end.

End Unrepr.

(** Text of printable ASCII characters other than the single quote and
    the backslash. *)
Definition plain_char (c : ascii) : bool :=
  Unicode.between 32 126 (Unicode.byte c)
  && negb (Ascii.eqb c Repr.squote) && negb (Ascii.eqb c Repr.backslash).

Fixpoint plain_text (s : string) : bool :=
  match s with
  | EmptyString => true
  | String c rest => plain_char c && plain_text rest
  end.

(** ** Concrete collaborators and inputs, used to run the model *)

Module Runs.

Definition r1 : result :=
  {[ "title" := "A"; "link" := "http://a"; "source" := "S"; "snippet" := "t" ]}.
Definition r2 : result := {[ "title" := "B"; "snippet" := "u" ]}.

Definition search_ok : string → exc results :=
  λ _, Return {[ "organic_results" := [r1; r2] ]}.

Definition search_down : string → exc results :=
  λ _, Raise (SearchError "provider unavailable").

(** Six results, and the first five of them beside another key. *)
Definition search_six : string → exc results :=
  λ _, Return {[ "organic_results" := replicate 6 r2 ]}.

Definition search_five : string → exc results :=
  λ _, Return {[ "organic_results" := replicate 5 r2; "search_metadata" := [] ]}.

Definition page (s : string) : Document :=
  {| page_content := s; source := "upload.pdf" |}.

(** A parser that rejects the upload whose bytes are ["corrupt"]. *)
Definition parse (bytes : string) : exc (list Document) :=
  if String.eqb bytes "corrupt" then Raise (IngestError "cannot parse")
  else Return [page bytes].

(** An executor that answers with its input. *)
Definition echo : executor :=
  λ d, Return {[ "output" := default "" (d !! "input"); "intermediate_steps" := "[]" ]}.

(** An executor whose model call fails. *)
Definition failing : executor := λ _, Raise (AgentError "model call failed").

(** An executor that asks the tool named [web_search] and answers with
    what the tool returned. *)
Definition ask_web (tools : list Tool) : executor :=
  λ d, match filter (λ t, name t = "web_search") tools with
       | t :: _ =>
           obs ← func t (default "" (d !! "input")) ;
           Return {[ "output" := obs ]}
       | [] => Return {[ "output" := "no tool" ]}
       end.

Definition world_of (search : string → exc results)
    (agent : list Tool → executor) : world :=
  {| SerpAPIWrapper := Return search;
     PyPDFLoader_load := parse;
     split_documents := λ _ docs, docs;
     FAISS_from_documents := λ docs, Return (λ _, Return (join LF (map page_content docs)));
     AgentExecutor := agent |}.

(** An executor that answers with a text of its own and reports the
    tool calls it made. *)
Definition answering : executor :=
  λ _, Return {[ "output" := "hi there";
                 "intermediate_steps" := "[web_search(diet)]" ]}.

(** A text ending in a no-break space (U+00A0), and a text that spells
    out what the rendering of that text and of a second message looks
    like. *)
Definition with_nbsp : string :=
  String "a" (String (ascii_of_nat 194) (String (ascii_of_nat 160) "")).

Definition looks_like_two : string :=
  "a\xa0'}, {'role': 'assistant', 'content': 'b".

Definition ask (text : string) : run_inputs :=
  {| OPENAI_API := "sk-1"; SERPAPI_API := "k-2"; pdf_docs := [];
     reset_clicked := false; user_input := Some text |}.

End Runs.

(** * Properties *)

(** ** Strings *)

Lemma append_cons a s t : String a s ++ t = String a (s ++ t).
Proof. reflexivity. Qed.

Lemma append_assoc s t u : (s ++ t) ++ u = s ++ t ++ u.
Proof. induction s as [|a s IH]; [done|]. by rewrite !append_cons, IH. Qed.

Lemma append_nil_r s : s ++ "" = s.
Proof. induction s as [|a s IH]; [done|]. by rewrite append_cons, IH. Qed.

Lemma occurs_here s u : occurs s (s ++ u).
Proof. by exists "", u. Qed.

Lemma occurs_refl s : occurs s s.
Proof. exists "", "". by rewrite append_nil_r. Qed.

Lemma occurs_app_r s t u : occurs s u → occurs s (t ++ u).
Proof. intros (pre & post & ->). exists (t ++ pre), post. by rewrite append_assoc. Qed.

Lemma occurs_app_l s t u : occurs s t → occurs s (t ++ u).
Proof.
  intros (pre & post & ->). exists pre, (post ++ u).
  by rewrite !append_assoc.
Qed.

Lemma occurs_empty t : occurs "" t.
Proof. by exists "", t. Qed.

(** Finds [s] among the pieces of a concatenation. *)
Ltac find_occurrence :=
  repeat first [ apply occurs_here | apply occurs_refl | apply occurs_app_r ].

Lemma join_cons sep x y l : join sep (x :: y :: l) = x ++ sep ++ join sep (y :: l).
Proof. reflexivity. Qed.

Lemma occurs_join sep x l : x ∈ l → occurs x (join sep l).
Proof.
  induction l as [|y [|z l] IH]; intros Hin.
  - by apply elem_of_nil in Hin.
  - apply list_elem_of_singleton in Hin as ->. apply occurs_refl.
  - rewrite join_cons. apply elem_of_cons in Hin as [->|Hin].
    + apply occurs_here.
    + do 2 apply occurs_app_r. by apply IH.
Qed.

(** ** The web-search adapter *)

Lemma format_result_link r :
  truthy (r !! "link") = true →
  format_result r =
    "- [" ++ str (r !! "title") ++ "](" ++ str (r !! "link") ++ ") ("
      ++ str (r !! "source") ++ ")" ++ LF ++ "  " ++ str (r !! "snippet").
Proof. intros H. unfold format_result. by rewrite H. Qed.

Lemma format_result_no_link r :
  truthy (r !! "link") = false →
  format_result r =
    "- " ++ str (r !! "title") ++ " (출처: " ++ str (r !! "source") ++ ")"
      ++ LF ++ "  " ++ str (r !! "snippet").
Proof. intros H. unfold format_result. by rewrite H. Qed.

Lemma format_result_cases r :
  ∃ rest, format_result r = String "-" (String " " rest).
Proof.
  destruct (truthy (r !! "link")) eqn:H.
  - rewrite format_result_link by done. eexists. reflexivity.
  - rewrite format_result_no_link by done. eexists. reflexivity.
Qed.


Lemma format_result_fields r :
  occurs (str (r !! "title")) (format_result r) ∧
  occurs (str (r !! "source")) (format_result r) ∧
  occurs (str (r !! "snippet")) (format_result r) ∧
  (∀ link, r !! "link" = Some link → occurs link (format_result r)).
Proof.
  destruct (truthy (r !! "link")) eqn:H.
  - rewrite format_result_link by done.
    repeat split; [find_occurrence..|].
    intros link Hl. rewrite Hl. simpl. find_occurrence.
  - rewrite format_result_no_link by done.
    repeat split; [find_occurrence..|].
    intros link Hl. rewrite Hl in H. destruct link; [|done].
    apply occurs_empty.
Qed.



Lemma str_insert_None (r : result) (k f : string) :
  r !! k = None → str (<[k := "None"]> r !! f) = str (r !! f).
Proof.
  intros Hk. destruct (decide (k = f)) as [<-|Hne].
  - by rewrite lookup_insert_eq, Hk.
  - by rewrite lookup_insert_ne.
Qed.

Lemma format_result_insert_None (r : result) (k : string) :
  k ≠ "link" → r !! k = None →
  format_result (<[k := "None"]> r) = format_result r.
Proof.
  intros Hne Hk. unfold format_result.
  rewrite !(str_insert_None r k) by done.
  by rewrite (lookup_insert_ne r k "link").
Qed.

(** C10.  A result lacking its title, source or snippet is rendered with
    the text [None] in that place: the line is the one the same result
    would give if the field held the string [None], so the field is not
    left out.  The shape of the line depends on the link alone: without a
    link field the line has no link part and labels the source. *)
Theorem C10_absent_field_rendered_as_None (r : result) (k : string) :
  k ∈ ["title"; "source"; "snippet"] →
  r !! k = None →
  occurs "None" (format_result r) ∧
  format_result r = format_result (<[k := "None"]> r) ∧
  (truthy (r !! "link") = true →
     format_result r =
       "- [" ++ str (r !! "title") ++ "](" ++ str (r !! "link") ++ ") ("
         ++ str (r !! "source") ++ ")" ++ LF ++ "  " ++ str (r !! "snippet")) ∧
  (r !! "link" = None →
     format_result r =
       "- " ++ str (r !! "title") ++ " (출처: " ++ str (r !! "source") ++ ")"
         ++ LF ++ "  " ++ str (r !! "snippet")).
Proof.
  intros Hk Hnone.
  assert (Hcase : k = "title" ∨ k = "source" ∨ k = "snippet").
  { apply list_elem_of_In in Hk. simpl in Hk. intuition. }
  assert (Hne : k ≠ "link").
  { destruct Hcase as [->|[->| ->]]; discriminate. }
  split; [|split; [|split]].
  - destruct (format_result_fields r) as (Ht & Hs & Hn & _).
    destruct Hcase as [->|[->| ->]]; rewrite Hnone in *; assumption.
  - symmetry. by apply format_result_insert_None.
  - apply format_result_link.
  - intros Hl. apply format_result_no_link. by rewrite Hl.
Qed.

Lemma C10_witness :
  "source" ∈ ["title"; "source"; "snippet"] ∧
  Runs.r2 !! "source" = None ∧
  occurs "None" (format_result Runs.r2).
Proof.
  assert (H1 : "source" ∈ ["title"; "source"; "snippet"]) by repeat constructor.
  assert (H2 : Runs.r2 !! "source" = None) by reflexivity.
  split; [exact H1|]. split; [exact H2|].
  exact (proj1 (C10_absent_field_rendered_as_None Runs.r2 "source" H1 H2)).
Defined.

(** ** Session memory *)

Lemma fresh_loc_unused (σ : state) : heap σ !! fresh (dom (heap σ)) = None.
Proof. apply not_elem_of_dom. apply is_fresh. Qed.

Lemma get_session_history_seen σ sid l :
  st_session_history σ !! sid = Some l →
  get_session_history sid σ = (σ, Return l).
Proof.
  intros H. unfold get_session_history, mbind, St_bind, st_bind, session_missing.
  rewrite bool_decide_eq_false_2 by (rewrite H; discriminate).
  unfold mret, St_ret, st_ret, get_session, getitem. by rewrite H.
Qed.

Lemma get_session_history_unseen σ sid :
  st_session_history σ !! sid = None →
  get_session_history sid σ = (with_session sid σ, Return (fresh (dom (heap σ)))).
Proof.
  intros H. unfold get_session_history, mbind, St_bind, st_bind, session_missing.
  rewrite bool_decide_eq_true_2 by done.
  unfold with_session. rewrite H.
  unfold new_history, set_session, get_session, getitem. simpl.
  by rewrite lookup_insert_eq.
Qed.

Lemma get_session_history_eq σ sid :
  get_session_history sid σ = (with_session sid σ, Return (session_loc sid σ)).
Proof.
  unfold session_loc. destruct (st_session_history σ !! sid) as [l|] eqn:H.
  - rewrite (get_session_history_seen σ sid l H). unfold with_session. by rewrite H.
  - by rewrite get_session_history_unseen.
Qed.

Lemma with_session_at σ sid :
  store_wf σ →
  ∃ h, session_at (with_session sid σ) sid (session_loc sid σ) h ∧
       messages h = history_of σ sid.
Proof.
  intros Hwf. unfold session_at, with_session, session_loc, history_of.
  destruct (st_session_history σ !! sid) as [l|] eqn:H; simpl.
  - destruct (Hwf sid l H) as [h Hh]. exists h. by rewrite Hh.
  - exists (mkHistory []). by rewrite !lookup_insert_eq.
Qed.

Lemma history_of_session_at σ sid l h :
  session_at σ sid l h → history_of σ sid = messages h.
Proof. intros [Hs Hh]. unfold history_of. by rewrite Hs, Hh. Qed.

Lemma append_session_at σ sid l h m :
  session_at σ sid l h →
  (append sid m σ).2 = Return () ∧
  session_at (append sid m σ).1 sid l (add_message h m) ∧
  st_messages (append sid m σ).1 = st_messages σ.
Proof.
  intros [Hs Hh]. unfold append, mbind, St_bind, st_bind.
  rewrite (get_session_history_seen σ sid l Hs). simpl.
  split; [done|]. split; [|done]. split; [done|]. simpl.
  by rewrite lookup_alter_eq, Hh.
Qed.

Lemma append_all_session_at ms : ∀ σ sid l h,
  session_at σ sid l h →
  (append_all sid ms σ).2 = Return () ∧
  session_at (append_all sid ms σ).1 sid l {| messages := messages h ++ ms |} ∧
  st_messages (append_all sid ms σ).1 = st_messages σ.
Proof.
  induction ms as [|m ms IH]; intros σ sid l h Hat.
  - simpl. rewrite app_nil_r. by destruct h.
  - destruct (append_session_at σ sid l h m Hat) as (Hr & Hat' & Hm).
    simpl. unfold mbind, St_bind, st_bind.
    destruct (append sid m σ) as [σ' r]. simpl in *. subst r.
    destruct (IH σ' sid l _ Hat') as (Hr2 & Hat2 & Hm2).
    split; [done|]. split; [|congruence].
    simpl in Hat2. by rewrite <- app_assoc in Hat2.
Qed.

Lemma append_eq σ sid m :
  append sid m σ = history_add_message (session_loc sid σ) m (with_session sid σ).
Proof.
  unfold append, mbind, St_bind, st_bind. by rewrite get_session_history_eq.
Qed.

Lemma history_add_message_at σ sid l h m :
  session_at σ sid l h →
  session_at (history_add_message l m σ).1 sid l (add_message h m).
Proof.
  intros [Hs Hh]. split; [done|]. simpl. by rewrite lookup_alter_eq, Hh.
Qed.

Lemma append_all_history σ sid ms :
  store_wf σ →
  (append_all sid ms σ).2 = Return () ∧
  ∃ h, session_at (with_session sid (append_all sid ms σ).1) sid
         (session_loc sid (append_all sid ms σ).1) h ∧
       messages h = (history_of σ sid ++ ms)%list.
Proof.
  intros Hwf. destruct ms as [|m ms].
  - simpl. split; [done|]. rewrite app_nil_r. by apply with_session_at.
  - destruct (with_session_at σ sid Hwf) as (h & Hat & Hh).
    pose proof (history_add_message_at _ _ _ _ m Hat) as Hat1.
    rewrite <- append_eq in Hat1.
    destruct (append_all_session_at ms _ _ _ _ Hat1) as (Hr & Hat2 & _).
    assert (Hstep : append_all sid (m :: ms) σ = append_all sid ms (append sid m σ).1).
    { simpl. unfold mbind, St_bind, st_bind. rewrite append_eq. reflexivity. }
    rewrite Hstep. split; [done|].
    destruct Hat2 as [Hs2 Hh2]. eexists. split.
    + unfold session_at, with_session, session_loc. rewrite Hs2. simpl. eauto.
    + simpl. rewrite Hh. by rewrite <- app_assoc.
Qed.

Lemma store_wf_init : store_wf init_state.
Proof. intros sid l H. simpl in H. by rewrite lookup_empty in H. Qed.

(** C2.  From a well-formed store, after any sequence of appends to
    session [sid] the history that [get_session_history sid] hands back is
    the previous history of [sid] followed by the appended messages, in
    call order; for an id not seen before, the previous history is empty,
    so it is exactly the appended messages, and the first lookup creates
    the session with a new object holding no message. *)
Theorem C2_history_keeps_insertion_order
    (σ : state) (sid : string) (ms : list Message) :
  store_wf σ →
  (append_all sid ms σ).2 = Return () ∧
  (∃ l h,
     (get_session_history sid (append_all sid ms σ).1).2 = Return l ∧
     heap (get_session_history sid (append_all sid ms σ).1).1 !! l = Some h ∧
     messages h = (history_of σ sid ++ ms)%list) ∧
  (st_session_history σ !! sid = None →
     history_of σ sid = [] ∧
     ∃ l, heap σ !! l = None ∧
          get_session_history sid σ =
            ({| st_messages := st_messages σ;
                st_session_history := <[sid := l]> (st_session_history σ);
                heap := <[l := mkHistory []]> (heap σ) |}, Return l)).
Proof.
  intros Hwf.
  destruct (append_all_history σ sid ms Hwf) as (Hr & h & [Hs Hh] & Hm).
  split; [done|]. split.
  - rewrite get_session_history_eq. simpl. eauto.
  - intros Hnew. split.
    + unfold history_of. by rewrite Hnew.
    + exists (fresh (dom (heap σ))). split; [apply fresh_loc_unused|].
      rewrite get_session_history_unseen by done.
      unfold with_session. by rewrite Hnew.
Qed.

Lemma C2_witness :
  store_wf init_state ∧
  ∃ l h,
    (get_session_history "s1"
       (append_all "s1" [mkMessage "user" "a"; mkMessage "assistant" "b"] init_state).1).2
      = Return l ∧
    heap (get_session_history "s1"
       (append_all "s1" [mkMessage "user" "a"; mkMessage "assistant" "b"] init_state).1).1
      !! l = Some h ∧
    messages h = (history_of init_state "s1"
                    ++ [mkMessage "user" "a"; mkMessage "assistant" "b"])%list.
Proof.
  split; [exact store_wf_init|].
  exact (proj1 (proj2 (C2_history_keeps_insertion_order init_state "s1"
    [mkMessage "user" "a"; mkMessage "assistant" "b"] store_wf_init))).
Defined.

(** ** One turn *)

Lemma read_after_get σ sid :
  default [] (messages <$> heap (with_session sid σ) !! session_loc sid σ)
  = history_of σ sid.
Proof.
  unfold with_session, session_loc, history_of.
  destruct (st_session_history σ !! sid) as [l|]; simpl; [done|].
  by rewrite lookup_insert_eq.
Qed.

Lemma main_turn_eq ag u σ :
  main_turn ag u σ =
    match turn_response ag u (history_of σ session_id) with
    | Return response => (after_turn σ u response, Return ())
    | Raise e => (with_session session_id σ, Raise e)
    end.
Proof.
  unfold main_turn, mbind, St_bind, st_bind.
  rewrite get_session_history_eq. unfold read_messages.
  rewrite read_after_get. unfold lift.
  by destruct (turn_response ag u (history_of σ session_id)).
Qed.

Lemma history_of_with_session σ sid0 sid :
  history_of (with_session sid0 σ) sid = history_of σ sid.
Proof.
  unfold with_session, history_of.
  destruct (st_session_history σ !! sid0) as [l0|] eqn:H0; [done|]. simpl.
  destruct (decide (sid0 = sid)) as [<-|Hne].
  - by rewrite lookup_insert_eq, H0, lookup_insert_eq.
  - rewrite lookup_insert_ne by done.
    destruct (st_session_history σ !! sid) as [l|]; [|done].
    destruct (decide (fresh (dom (heap σ)) = l)) as [<-|Hl].
    + by rewrite lookup_insert_eq, fresh_loc_unused.
    + by rewrite lookup_insert_ne.
Qed.

Lemma history_of_after_turn σ u response :
  store_wf σ →
  history_of (after_turn σ u response) session_id =
    (history_of σ session_id ++
       [mkMessage "user" u; mkMessage "assistant" response])%list.
Proof.
  intros Hwf. destruct (with_session_at σ session_id Hwf) as (h & [Hs Hh] & Hm).
  unfold history_of, after_turn. simpl. rewrite Hs.
  rewrite !lookup_alter_eq, Hh. simpl. rewrite Hm.
  by rewrite <- app_assoc.
Qed.

Lemma st_messages_with_session σ sid :
  st_messages (with_session sid σ) = st_messages σ.
Proof. unfold with_session. by destruct (st_session_history σ !! sid). Qed.

Lemma store_with_session_ne σ sid0 sid :
  sid ≠ sid0 →
  st_session_history (with_session sid0 σ) !! sid = st_session_history σ !! sid.
Proof.
  intros Hne. unfold with_session.
  destruct (st_session_history σ !! sid0); [done|]. simpl.
  by rewrite lookup_insert_ne.
Qed.

Lemma heap_with_session_ne σ sid0 l :
  l ≠ session_loc sid0 σ →
  heap (with_session sid0 σ) !! l = heap σ !! l.
Proof.
  unfold with_session, session_loc.
  destruct (st_session_history σ !! sid0); [done|]. simpl. intros Hne.
  by rewrite lookup_insert_ne.
Qed.

Lemma chat_with_agent_output ag x result response :
  ag {[ "input" := x ]} = Return result →
  result !! "output" = Some response →
  chat_with_agent x ag = Return response.
Proof.
  intros Hag Hout. unfold chat_with_agent, mbind, exc_bind, Py.bind, getitem.
  by rewrite Hag, Hout.
Qed.

Lemma turn_response_agent_input ag u msgs :
  turn_response ag u msgs = chat_with_agent (agent_input u msgs) ag.
Proof. by destruct msgs. Qed.

(** A run of the script that reaches the turn block. *)
Lemma main_with_turn w i σ tools u :
  reset_clicked i = false →
  nonempty (OPENAI_API i) && nonempty (SERPAPI_API i) = true →
  build_tools w (pdf_docs i) = Return tools →
  user_input i = Some u →
  nonempty u = true →
  main w i σ =
    match turn_response (AgentExecutor w tools) u (history_of σ session_id) with
    | Return response =>
        (after_turn σ u response, Return (Chat (st_messages (after_turn σ u response))))
    | Raise e => (with_session session_id σ, Raise e)
    end.
Proof.
  intros Hr Hk Ht Hu Hn. unfold main. rewrite Hr, Hk, Hu, Hn.
  unfold mbind, St_bind, st_bind, lift. rewrite Ht, main_turn_eq.
  by destruct (turn_response _ u _).
Qed.

(** C3.  In a run of the script that reaches the turn block and in which
    the executor, called on the agent input of the turn, returns a result
    whose ["output"] entry is [response], the display list and the history
    of the session each grow by exactly the user message followed by the
    assistant message carrying [response]; no other session id is stored
    or changed, no other object is modified, and what the run renders
    ends with that answer.  Whatever else the executor's result holds
    (the trace of tool calls among it) is dropped. *)
Theorem C3_successful_turn_appends_user_then_answer
    (w : world) (i : run_inputs) (σ : state) (tools : list Tool)
    (u response : string) (result : gmap string string) :
  store_wf σ →
  reset_clicked i = false →
  nonempty (OPENAI_API i) && nonempty (SERPAPI_API i) = true →
  build_tools w (pdf_docs i) = Return tools →
  user_input i = Some u →
  nonempty u = true →
  AgentExecutor w tools {[ "input" := agent_input u (history_of σ session_id) ]}
    = Return result →
  result !! "output" = Some response →
  let turn := [mkMessage "user" u; mkMessage "assistant" response] in
  let σ' := (main w i σ).1 in
  history_of σ' session_id = (history_of σ session_id ++ turn)%list ∧
  st_messages σ' = (st_messages σ ++ turn)%list ∧
  (main w i σ).2 = Return (Chat (st_messages σ ++ turn)%list) ∧
  (∀ sid, sid ≠ session_id →
     st_session_history σ' !! sid = st_session_history σ !! sid) ∧
  (∀ l, l ≠ session_loc session_id σ → heap σ' !! l = heap σ !! l).
Proof.
  intros Hwf Hr Hk Ht Hu Hn Hres Hout turn σ'. subst σ'.
  assert (Hresp : turn_response (AgentExecutor w tools) u (history_of σ session_id)
                  = Return response).
  { rewrite turn_response_agent_input.
    by apply (chat_with_agent_output _ _ result). }
  rewrite (main_with_turn w i σ tools u Hr Hk Ht Hu Hn), Hresp. simpl.
  rewrite st_messages_with_session, <- app_assoc.
  split; [by apply history_of_after_turn|].
  split; [done|]. split; [done|]. split.
  - intros sid Hne. by apply store_with_session_ne.
  - intros l Hne. rewrite !lookup_alter_ne by done.
    by apply heap_with_session_ne.
Qed.

Lemma C3_witness :
  store_wf init_state ∧
  AgentExecutor (Runs.world_of Runs.search_ok (λ _, Runs.answering))
    [mkTool "web_search" (run_with_source Runs.search_ok) web_search_description]
    {[ "input" := agent_input "hello" (history_of init_state session_id) ]}
  = Return {[ "output" := "hi there";
              "intermediate_steps" := "[web_search(diet)]" ]} ∧
  history_of
    (main (Runs.world_of Runs.search_ok (λ _, Runs.answering)) (Runs.ask "hello")
       init_state).1
    session_id
  = [mkMessage "user" "hello"; mkMessage "assistant" "hi there"].
Proof.
  split; [exact store_wf_init|]. split; [reflexivity|].
  exact (proj1 (C3_successful_turn_appends_user_then_answer
    (Runs.world_of Runs.search_ok (λ _, Runs.answering)) (Runs.ask "hello") init_state
    _ "hello" "hi there" _
    store_wf_init eq_refl eq_refl eq_refl eq_refl eq_refl eq_refl eq_refl)).
Defined.

(** C4 as amended.  In a run of the script that reaches the turn block and
    in which the call of the agent raises [e], the run ends by raising
    [e]: nothing is rendered in its place.  No message is appended: the
    display list and the history of every session are what they were
    before the run. *)
Theorem C4_failed_turn_raises_and_appends_nothing
    (w : world) (i : run_inputs) (σ : state) (tools : list Tool)
    (u : string) (e : exn) :
  reset_clicked i = false →
  nonempty (OPENAI_API i) && nonempty (SERPAPI_API i) = true →
  build_tools w (pdf_docs i) = Return tools →
  user_input i = Some u →
  nonempty u = true →
  turn_response (AgentExecutor w tools) u (history_of σ session_id) = Raise e →
  (main w i σ).2 = Raise e ∧
  (∀ sid, history_of (main w i σ).1 sid = history_of σ sid) ∧
  st_messages (main w i σ).1 = st_messages σ.
Proof.
  intros Hr Hk Ht Hu Hn Hfail.
  rewrite (main_with_turn w i σ tools u Hr Hk Ht Hu Hn), Hfail. simpl.
  split; [done|]. split.
  - intros sid. apply history_of_with_session.
  - apply st_messages_with_session.
Qed.

Lemma C4_witness :
  turn_response (AgentExecutor (Runs.world_of Runs.search_ok (λ _, Runs.failing))
                   [mkTool "web_search" (run_with_source Runs.search_ok)
                      web_search_description])
    "hello" (history_of init_state session_id)
  = Raise (AgentError "model call failed") ∧
  (main (Runs.world_of Runs.search_ok (λ _, Runs.failing)) (Runs.ask "hello") init_state).2
  = Raise (AgentError "model call failed").
Proof.
  split; [reflexivity|].
  exact (proj1 (C4_failed_turn_raises_and_appends_nothing
    (Runs.world_of Runs.search_ok (λ _, Runs.failing)) (Runs.ask "hello") init_state
    _ "hello" _ eq_refl eq_refl eq_refl eq_refl eq_refl eq_refl)).
Defined.

(** C4 as stated fails: when the agent's model call fails on the first
    message of a session, the run renders no failure message; it ends with
    the agent's exception. *)
Lemma C4_counterexample :
  Runs.failing {[ "input" := "hello" ]} = Raise (AgentError "model call failed") ∧
  ¬ ∃ v : view,
      (main (Runs.world_of Runs.search_ok (λ _, Runs.failing))
         (Runs.ask "hello") init_state).2 = Return v.
Proof.
  split; [reflexivity|]. intros [v Hv]. vm_compute in Hv. discriminate.
Qed.

(** *** Reading the rendering back *)

(** Linear arithmetic with division and remainder by constants. *)
Ltac div_lia := zify; Z.to_euclidean_division_equations; lia.

Lemma unrepr_char (q c : ascii) (tail : string) :
  q = Repr.squote ∨ q = Repr.dquote →
  Unrepr.unrepr_body q (Repr.repr_char q c ++ tail) =
    Unrepr.push (String c "") (Unrepr.unrepr_body q tail).
Proof.
  intros [-> | ->]; destruct c as [[] [] [] [] [] [] [] []]; reflexivity.
Qed.

Lemma repr_char_beyond_ascii (q c : ascii) :
  q = Repr.squote ∨ q = Repr.dquote →
  N.ltb (Unicode.byte c) 128 = false →
  Repr.repr_char q c = String c "".
Proof.
  intros [-> | ->]; destruct c as [[] [] [] [] [] [] [] []]; intros H;
    solve [reflexivity | discriminate H].
Qed.

Lemma hex_value_digit (d : N) :
  (d < 16)%N → Unrepr.hex_value (Repr.hex_digit (N.to_nat d)) = Some d.
Proof.
  intros Hd.
  assert (Hcases : Forall (λ k, Unrepr.hex_value (Repr.hex_digit (N.to_nat k)) = Some k)
                     (N.of_nat <$> seq 0 16)).
  { repeat constructor. }
  rewrite Forall_forall in Hcases. apply Hcases.
  apply list_elem_of_fmap. exists (N.to_nat d). split; [lia|].
  apply elem_of_seq. lia.
Qed.

Lemma hex_number_hex (k : nat) : ∀ cp acc,
  Unrepr.hex_number acc (list_ascii_of_string (Repr.hex k cp)) =
    Some (acc * 16 ^ N.of_nat k + cp mod 16 ^ N.of_nat k)%N.
Proof.
  induction k as [|k IH]; intros cp acc.
  - simpl. f_equal. rewrite N.mod_1_r. lia.
  - simpl Repr.hex. simpl list_ascii_of_string. simpl Unrepr.hex_number.
    rewrite hex_value_digit by (apply N.mod_upper_bound; lia).
    rewrite IH. f_equal.
    replace (N.of_nat (S k)) with (N.succ (N.of_nat k)) by lia.
    rewrite N.pow_succ_r'.
    rewrite (N.mul_comm 16 (16 ^ N.of_nat k)) at 2.
    rewrite N.Div0.mod_mul_r.
    generalize (16 ^ N.of_nat k)%N (cp mod 16 ^ N.of_nat k)%N
               ((cp / 16 ^ N.of_nat k) mod 16)%N.
    intros A r m. ring.
Qed.

Lemma escaped_hex (k : nat) (cp : N) :
  (128 ≤ cp)%N → (cp < 16 ^ N.of_nat k)%N →
  Unrepr.escaped (list_ascii_of_string (Repr.hex k cp)) = Some (Unicode.encode cp).
Proof.
  intros Hlo Hhi. unfold Unrepr.escaped. rewrite hex_number_hex.
  rewrite N.mul_0_l, N.add_0_l, N.mod_small by done.
  assert (Hge : N.ltb cp 128 = false) by (apply N.ltb_ge; lia).
  by rewrite Hge.
Qed.

Lemma unrepr_escape (q : ascii) (cp : N) (tail : string) :
  q = Repr.squote ∨ q = Repr.dquote →
  (128 ≤ cp)%N → (cp ≤ 1114111)%N →
  Unrepr.unrepr_body q (Repr.escape cp ++ tail) =
    Unrepr.push (Unicode.encode cp) (Unrepr.unrepr_body q tail).
Proof.
  intros Hq Hlo Hhi. unfold Repr.escape.
  destruct (N.leb cp 255) eqn:H255; [|destruct (N.leb cp 65535) eqn:H65535].
  - apply N.leb_le in H255.
    transitivity (Unrepr.push_escaped (list_ascii_of_string (Repr.hex 2 cp))
                    (Unrepr.unrepr_body q tail)).
    { destruct Hq as [-> | ->]; reflexivity. }
    unfold Unrepr.push_escaped. rewrite escaped_hex; [done|done|]. simpl. lia.
  - apply N.leb_le in H65535.
    transitivity (Unrepr.push_escaped (list_ascii_of_string (Repr.hex 4 cp))
                    (Unrepr.unrepr_body q tail)).
    { destruct Hq as [-> | ->]; reflexivity. }
    unfold Unrepr.push_escaped. rewrite escaped_hex; [done|done|]. simpl. lia.
  - transitivity (Unrepr.push_escaped (list_ascii_of_string (Repr.hex 8 cp))
                    (Unrepr.unrepr_body q tail)).
    { destruct Hq as [-> | ->]; reflexivity. }
    unfold Unrepr.push_escaped. rewrite escaped_hex; [done|done|]. simpl. lia.
Qed.

Lemma byte_bound (c : ascii) : (Unicode.byte c < 256)%N.
Proof. apply N_ascii_bounded. Qed.

Lemma ascii_of_byte (c : ascii) (n : N) : n = Unicode.byte c → ascii_of_N n = c.
Proof. intros ->. apply ascii_N_embedding. Qed.

Lemma between_spec lo hi n :
  Unicode.between lo hi n = true ↔ (lo ≤ n ∧ n ≤ hi)%N.
Proof.
  unfold Unicode.between. rewrite andb_true_iff, !N.leb_le. done.
Qed.

(** A sequence that [Unicode.decode] accepts is the encoding of the code
    point it gives. *)
Lemma decode_encode (s : string) (cp : N) (len : nat) :
  Unicode.decode s = Some (cp, len) →
  s = Unicode.encode cp ++ Unrepr.drop_bytes len s ∧
  (128 ≤ cp ≤ 1114111)%N ∧
  (1 ≤ len)%nat ∧
  (String.length (Unrepr.drop_bytes len s) < String.length s)%nat.
Proof.
  unfold Unicode.decode, Unicode.continuation.
  destruct s as [|b0 [|b1 rest1]]; [done..|].
  pose proof (byte_bound b0) as B0. pose proof (byte_bound b1) as B1.
  destruct (Unicode.between 194 223 (Unicode.byte b0)) eqn:H2.
  { destruct (Unicode.between 128 191 (Unicode.byte b1)) eqn:C1; [|done].
    intros [= <- <-]. apply between_spec in H2, C1.
    set (v := ((Unicode.byte b0 - 192) * 64 + (Unicode.byte b1 - 128))%N).
    assert (Hv : (128 ≤ v < 2048)%N) by (subst v; lia).
    unfold Unicode.encode.
    assert (E1 : N.ltb v 128 = false) by (apply N.ltb_ge; lia).
    assert (E2 : N.ltb v 2048 = true) by (apply N.ltb_lt; lia).
    rewrite E1, E2. simpl Unrepr.drop_bytes. simpl String.length.
    split; [|split; [lia|split; lia]].
    rewrite !append_cons. f_equal; [|f_equal].
    - symmetry. apply ascii_of_byte. subst v. div_lia.
    - symmetry. apply ascii_of_byte. subst v. div_lia. }
  destruct rest1 as [|b2 rest2]; [done|].
  pose proof (byte_bound b2) as B2.
  destruct (Unicode.between 224 239 (Unicode.byte b0)) eqn:H3.
  { destruct (Unicode.between 128 191 (Unicode.byte b1)) eqn:C1; [|done].
    destruct (Unicode.between 128 191 (Unicode.byte b2)) eqn:C2; [|done].
    simpl andb.
    set (v := ((Unicode.byte b0 - 224) * 4096 + (Unicode.byte b1 - 128) * 64
                + (Unicode.byte b2 - 128))%N).
    destruct (N.leb 2048 v) eqn:Hmin; [|done].
    intros [= <- <-]. apply between_spec in H3, C1, C2. apply N.leb_le in Hmin.
    assert (Hv : (2048 ≤ v < 65536)%N) by (subst v; lia).
    unfold Unicode.encode.
    assert (E1 : N.ltb v 128 = false) by (apply N.ltb_ge; lia).
    assert (E2 : N.ltb v 2048 = false) by (apply N.ltb_ge; lia).
    assert (E3 : N.ltb v 65536 = true) by (apply N.ltb_lt; lia).
    rewrite E1, E2, E3. simpl Unrepr.drop_bytes. simpl String.length.
    split; [|split; [lia|split; lia]].
    rewrite !append_cons. f_equal; [|f_equal; [|f_equal]].
    - symmetry. apply ascii_of_byte. subst v. div_lia.
    - symmetry. apply ascii_of_byte. subst v. div_lia.
    - symmetry. apply ascii_of_byte. subst v. div_lia. }
  destruct rest2 as [|b3 rest3]; [done|].
  pose proof (byte_bound b3) as B3.
  set (v := ((Unicode.byte b0 - 240) * 262144 + (Unicode.byte b1 - 128) * 4096
              + (Unicode.byte b2 - 128) * 64 + (Unicode.byte b3 - 128))%N).
  destruct (Unicode.between 240 244 (Unicode.byte b0)) eqn:H4; [|done].
  destruct (Unicode.between 128 191 (Unicode.byte b1)) eqn:C1; [|done].
  destruct (Unicode.between 128 191 (Unicode.byte b2)) eqn:C2; [|done].
  destruct (Unicode.between 128 191 (Unicode.byte b3)) eqn:C3; [|done].
  simpl andb.
  destruct (Unicode.between 65536 1114111 v) eqn:Hrange; [|done].
  intros [= <- <-]. apply between_spec in H4, C1, C2, C3, Hrange.
  unfold Unicode.encode.
  assert (E1 : N.ltb v 128 = false) by (apply N.ltb_ge; lia).
  assert (E2 : N.ltb v 2048 = false) by (apply N.ltb_ge; lia).
  assert (E3 : N.ltb v 65536 = false) by (apply N.ltb_ge; lia).
  rewrite E1, E2, E3. simpl Unrepr.drop_bytes. simpl String.length.
  split; [|split; [lia|split; lia]].
  rewrite !append_cons. f_equal; [|f_equal; [|f_equal; [|f_equal]]].
  - symmetry. apply ascii_of_byte. subst v. div_lia.
  - symmetry. apply ascii_of_byte. subst v. div_lia.
  - symmetry. apply ascii_of_byte. subst v. div_lia.
  - symmetry. apply ascii_of_byte. subst v. div_lia.
Qed.

Lemma repr_body_skip (q : ascii) (k : nat) : ∀ s,
  Repr.repr_body q k s = Repr.repr_body q 0 (Unrepr.drop_bytes k s).
Proof.
  induction k as [|k IH]; intros s; [by destruct s|].
  destruct s as [|c rest]; [done|]. simpl. apply IH.
Qed.

Lemma repr_body_cons (q c : ascii) (rest : string) :
  Repr.repr_body q 0 (String c rest) =
    if N.ltb (Unicode.byte c) 128 then
      Repr.repr_char q c ++ Repr.repr_body q 0 rest
    else
      match Unicode.decode (String c rest) with
      | Some (cp, len) =>
          if Unicode.isprintable cp
          then String c (Repr.repr_body q 0 rest)
          else Repr.escape cp ++ Repr.repr_body q (len - 1) rest
      | None => String c (Repr.repr_body q 0 rest)
      end.
Proof. reflexivity. Qed.

Lemma unrepr_repr_body_bounded (q : ascii) (tail : string) (n : nat) :
  q = Repr.squote ∨ q = Repr.dquote →
  ∀ s, (String.length s ≤ n)%nat →
  Unrepr.unrepr_body q (Repr.repr_body q 0 s ++ String q tail) = Some (s, tail).
Proof.
  intros Hq. induction n as [|n IH]; intros s Hlen.
  { destruct s; [|simpl in Hlen; lia].
    destruct Hq as [-> | ->]; reflexivity. }
  destruct s as [|c rest].
  { destruct Hq as [-> | ->]; reflexivity. }
  simpl in Hlen.
  assert (Hcopy : Unrepr.unrepr_body q
            ((Repr.repr_char q c ++ Repr.repr_body q 0 rest) ++ String q tail)
          = Some (String c rest, tail)).
  { rewrite append_assoc, (unrepr_char q c _ Hq), IH by lia. done. }
  rewrite repr_body_cons.
  destruct (N.ltb (Unicode.byte c) 128) eqn:Hascii; [exact Hcopy|].
  assert (Hraw : Unrepr.unrepr_body q
            (String c (Repr.repr_body q 0 rest) ++ String q tail)
          = Some (String c rest, tail)).
  { rewrite (repr_char_beyond_ascii q c Hq Hascii) in Hcopy. exact Hcopy. }
  destruct (Unicode.decode (String c rest)) as [[cp len]|] eqn:Hdec; [|exact Hraw].
  destruct (Unicode.isprintable cp); [exact Hraw|].
  destruct (decode_encode _ _ _ Hdec) as (Hs & [Hlo Hhi] & Hlen1 & Hshort).
  rewrite repr_body_skip.
  assert (Hdrop : Unrepr.drop_bytes (len - 1) rest
                  = Unrepr.drop_bytes len (String c rest)).
  { destruct len as [|len]; [lia|]. simpl. by rewrite Nat.sub_0_r. }
  rewrite Hdrop, append_assoc, (unrepr_escape q cp _ Hq Hlo Hhi).
  rewrite IH by (simpl in Hshort; lia).
  unfold Unrepr.push. by rewrite <- Hs.
Qed.

Lemma unrepr_repr_body (q : ascii) (s tail : string) :
  q = Repr.squote ∨ q = Repr.dquote →
  Unrepr.unrepr_body q (Repr.repr_body q 0 s ++ String q tail) = Some (s, tail).
Proof. intros Hq. by apply (unrepr_repr_body_bounded q tail (String.length s)). Qed.

Lemma quote_of_cases s :
  Repr.quote_of s = Repr.squote ∨ Repr.quote_of s = Repr.dquote.
Proof.
  unfold Repr.quote_of.
  destruct (Repr.contains_char Repr.squote s && negb (Repr.contains_char Repr.dquote s));
    auto.
Qed.

Lemma unrepr_repr_str (s tail : string) :
  Unrepr.unrepr_str (Repr.repr_str s ++ tail) = Some (s, tail).
Proof.
  unfold Repr.repr_str. rewrite append_cons, append_assoc, append_cons.
  change ("" ++ tail) with tail. unfold Unrepr.unrepr_str.
  generalize (quote_of_cases s). generalize (Repr.quote_of s). intros q Hq.
  assert (Hc : Ascii.eqb q Repr.squote || Ascii.eqb q Repr.dquote = true).
  { by destruct Hq as [-> | ->]. }
  rewrite Hc. by apply unrepr_repr_body.
Qed.

Lemma repr_str_inj s1 s2 t1 t2 :
  Repr.repr_str s1 ++ t1 = Repr.repr_str s2 ++ t2 → s1 = s2 ∧ t1 = t2.
Proof.
  intros H. pose proof (unrepr_repr_str s1 t1) as H1.
  rewrite H, unrepr_repr_str in H1. by injection H1 as <- <-.
Qed.

Lemma repr_char_plain (c : ascii) :
  plain_char c = true →
  N.ltb (Unicode.byte c) 128 = true ∧
  Repr.repr_char Repr.squote c = String c "" ∧
  Ascii.eqb c Repr.squote = false.
Proof.
  destruct c as [[] [] [] [] [] [] [] []]; intros H;
    solve [discriminate H | by repeat split].
Qed.

Lemma repr_str_plain (s : string) :
  plain_text s = true →
  Repr.repr_str s = String Repr.squote (s ++ String Repr.squote "").
Proof.
  intros Hplain.
  assert (Hq : Repr.contains_char Repr.squote s = false ∧
               Repr.repr_body Repr.squote 0 s = s).
  { induction s as [|c s IH]; [done|]. simpl in Hplain.
    apply andb_true_iff in Hplain as [Hc Hs].
    destruct (repr_char_plain c Hc) as (Hascii & Hchar & Hne).
    destruct (IH Hs) as [IH1 IH2]. split.
    - simpl. by rewrite Hne.
    - rewrite repr_body_cons, Hascii, Hchar, IH2. done. }
  destruct Hq as [Hnone Hbody]. unfold Repr.repr_str, Repr.quote_of.
  rewrite Hnone. simpl. by rewrite Hbody.
Qed.

Lemma repr_dict_msg (m : Message) :
  Repr.repr_dict (msg_dict m) =
    "{'role': " ++ Repr.repr_str (role m) ++ ", 'content': "
      ++ Repr.repr_str (content m) ++ "}".
Proof.
  unfold Repr.repr_dict, msg_dict. simpl map. rewrite join_cons.
  unfold join. simpl String.concat. by rewrite !append_assoc.
Qed.

Lemma repr_dict_inj m1 m2 t1 t2 :
  Repr.repr_dict (msg_dict m1) ++ t1 = Repr.repr_dict (msg_dict m2) ++ t2 →
  m1 = m2 ∧ t1 = t2.
Proof.
  rewrite !repr_dict_msg, !append_assoc. intros H.
  apply (String.app_inj "{'role': ") in H.
  apply repr_str_inj in H as [Hrole H].
  apply (String.app_inj ", 'content': ") in H.
  apply repr_str_inj in H as [Hcontent H].
  apply (String.app_inj "}") in H.
  split; [|done]. destruct m1, m2. simpl in *. by subst.
Qed.

(** What follows the first entry in a joined list. *)
Lemma join_cons_rest x l :
  join ", " (x :: l) =
    x ++ match l with [] => "" | _ :: _ => ", " ++ join ", " l end.
Proof. destruct l; [by rewrite append_nil_r|apply join_cons]. Qed.

Lemma joined_dicts_inj : ∀ h1 h2 t1 t2,
  join ", " (map (λ m, Repr.repr_dict (msg_dict m)) h1) ++ String "]" t1 =
  join ", " (map (λ m, Repr.repr_dict (msg_dict m)) h2) ++ String "]" t2 →
  h1 = h2 ∧ t1 = t2.
Proof.
  assert (Hopen : ∀ m rest t, String "]" t ≠ Repr.repr_dict (msg_dict m) ++ rest).
  { intros m rest t. rewrite repr_dict_msg. discriminate. }
  induction h1 as [|m1 h1 IH]; intros [|m2 h2] t1 t2; simpl map.
  - intros H. by injection H as <-.
  - rewrite join_cons_rest, append_assoc. intros H. by apply Hopen in H.
  - rewrite join_cons_rest, append_assoc. intros H. symmetry in H.
    by apply Hopen in H.
  - rewrite !join_cons_rest, !append_assoc. intros H.
    apply repr_dict_inj in H as [<- H].
    destruct h1 as [|m1' h1], h2 as [|m2' h2].
    + by injection H as <-.
    + discriminate H.
    + discriminate H.
    + simpl map in H. cbv beta iota in H.
      rewrite !append_assoc in H. apply (String.app_inj ", ") in H.
      by apply (IH (m2' :: h2)) in H as [<- <-].
Qed.

Lemma str_list_inj h1 h2 :
  Repr.str_list (map msg_dict h1) = Repr.str_list (map msg_dict h2) → h1 = h2.
Proof.
  unfold Repr.str_list. rewrite !map_map. intros H.
  apply (String.app_inj "[") in H.
  by apply joined_dicts_inj in H as [<- _].
Qed.

Lemma agent_input_inj (u : string) (h1 h2 : list Message) :
  agent_input u h1 = agent_input u h2 → h1 = h2.
Proof.
  assert (Hlonger : ∀ m h, u ≠ agent_input u (m :: h)).
  { intros m h H. unfold agent_input in H.
    rewrite <- (append_nil_r u) in H at 1.
    apply (String.app_inj u) in H. discriminate H. }
  destruct h1 as [|m1 h1], h2 as [|m2 h2]; intros H.
  - done.
  - by apply Hlonger in H.
  - symmetry in H. by apply Hlonger in H.
  - unfold agent_input in H.
    apply (String.app_inj u), (String.app_inj LF), (String.app_inj LF),
      (String.app_inj "Previous Messages: ") in H.
    by apply str_list_inj.
Qed.

Lemma occurs_repr_dict (m : Message) :
  occurs (Repr.repr_str (role m)) (Repr.repr_dict (msg_dict m)) ∧
  occurs (Repr.repr_str (content m)) (Repr.repr_dict (msg_dict m)).
Proof.
  assert (Heq : Repr.repr_dict (msg_dict m) =
            "{" ++ Repr.repr_str "role" ++ ": " ++ Repr.repr_str (role m) ++ ", "
              ++ Repr.repr_str "content" ++ ": " ++ Repr.repr_str (content m) ++ "}").
  { unfold Repr.repr_dict, msg_dict. simpl map. rewrite join_cons.
    unfold join. simpl String.concat. by rewrite !append_assoc. }
  rewrite Heq. split.
  - do 3 apply occurs_app_r. apply occurs_here.
  - do 7 apply occurs_app_r. apply occurs_here.
Qed.

Lemma occurs_trans s t u : occurs s t → occurs t u → occurs s u.
Proof.
  intros (p1 & q1 & ->) (p2 & q2 & ->). exists (p2 ++ p1), (q1 ++ q2).
  by rewrite !append_assoc.
Qed.

Lemma occurs_str_list (m : Message) (h : list Message) :
  m ∈ h → occurs (Repr.repr_dict (msg_dict m)) (Repr.str_list (map msg_dict h)).
Proof.
  intros Hin. unfold Repr.str_list. apply occurs_app_r, occurs_app_l.
  apply occurs_join. rewrite map_map. apply list_elem_of_fmap.
  by exists m.
Qed.

(** C8.  The turn consults the executor on one input dictionary only,
    whose ["input"] is [agent_input]: the user's text itself when the
    session has no message yet, and otherwise the text, a blank line, the
    label [Previous Messages: ] and the rendering of the whole history as
    a list of role/content dictionaries, in which every earlier message
    appears with its role and its content as Python string literals.  The
    literal of a text of printable ASCII characters without single quote
    or backslash is the text between single quotes; in general a literal
    determines its text, so that no other history gives the same
    input. *)
Theorem C8_history_folded_into_agent_input
    (ag : executor) (u : string) (σ : state) :
  let h := history_of σ session_id in
  main_turn ag u σ = main_turn (λ _, ag {[ "input" := agent_input u h ]}) u σ ∧
  turn_response ag u h =
    (result ← ag {[ "input" := agent_input u h ]} ; getitem result "output") ∧
  (h = [] → agent_input u h = u) ∧
  (h ≠ [] →
     agent_input u h =
       u ++ LF ++ LF ++ "Previous Messages: " ++ Repr.str_list (map msg_dict h) ∧
     Repr.str_list (map msg_dict h) =
       "[" ++ join ", " (map (λ m, Repr.repr_dict (msg_dict m)) h) ++ "]" ∧
     ∀ m, m ∈ h →
       Repr.repr_dict (msg_dict m) =
         "{'role': " ++ Repr.repr_str (role m) ++ ", 'content': "
           ++ Repr.repr_str (content m) ++ "}" ∧
       occurs (Repr.repr_dict (msg_dict m)) (agent_input u h) ∧
       occurs (Repr.repr_str (role m)) (agent_input u h) ∧
       occurs (Repr.repr_str (content m)) (agent_input u h)) ∧
  (∀ s, plain_text s = true →
     Repr.repr_str s = String Repr.squote (s ++ String Repr.squote "")) ∧
  (∀ s1 s2, Repr.repr_str s1 = Repr.repr_str s2 → s1 = s2) ∧
  (∀ h', agent_input u h' = agent_input u h → h' = h).
Proof.
  intros h. split; [|split; [|split; [|split; [|split; [|split]]]]].
  - rewrite !main_turn_eq. fold h. by rewrite !turn_response_agent_input.
  - by rewrite turn_response_agent_input.
  - by intros ->.
  - intros Hne. destruct h as [|m0 h'] eqn:Hh; [done|].
    split; [done|]. split.
    { unfold Repr.str_list. by rewrite map_map. }
    intros m Hm.
    assert (Hd : occurs (Repr.repr_dict (msg_dict m)) (agent_input u (m0 :: h'))).
    { unfold agent_input. do 4 apply occurs_app_r. by apply occurs_str_list. }
    destruct (occurs_repr_dict m) as [Hrole Hcontent].
    split; [apply repr_dict_msg|].
    split; [done|]. split; eapply occurs_trans; eauto.
  - apply repr_str_plain.
  - intros s1 s2 Heq.
    assert (H : Repr.repr_str s1 ++ "" = Repr.repr_str s2 ++ "") by by rewrite Heq.
    by apply repr_str_inj in H as [-> _].
  - intros h' Heq. by apply (agent_input_inj u).
Qed.

Example agent_input_second_turn :
  agent_input "more" [mkMessage "user" "hello"; mkMessage "assistant" "it's me"] =
  "more

Previous Messages: [{'role': 'user', 'content': 'hello'}, "
  ++ "{'role': 'assistant', 'content': " ++ String Repr.dquote "it's me"
  ++ String Repr.dquote "}]".
Proof. reflexivity. Qed.

(** ** The document indexer *)

Lemma load_loop_acc w files : ∀ acc,
  load_loop w files acc =
    match load_loop w files [] with
    | Return ds => Return (acc ++ ds)%list
    | Raise e => Raise e
    end.
Proof.
  induction files as [|f files IH]; intros acc.
  - simpl. by rewrite app_nil_r.
  - simpl. unfold mbind, exc_bind, Py.bind.
    destruct (PyPDFLoader_load w f) as [d|e]; [|done].
    rewrite (IH (acc ++ d)%list), (IH d).
    destruct (load_loop w files []); [|done]. simpl. by rewrite app_assoc.
Qed.

Lemma load_loop_app w good rest : ∀ acc docs,
  load_loop w good [] = Return docs →
  load_loop w (good ++ rest)%list acc = load_loop w rest (acc ++ docs)%list.
Proof.
  induction good as [|f good IH]; intros acc docs H.
  - simpl in H. injection H as <-. by rewrite app_nil_r.
  - simpl in *. unfold mbind, exc_bind, Py.bind in *.
    destruct (PyPDFLoader_load w f) as [d|e]; [|done].
    simpl in H. rewrite load_loop_acc in H.
    destruct (load_loop w good []) as [ds|] eqn:Hg; [|done].
    injection H as <-. rewrite (IH (acc ++ d)%list ds eq_refl).
    by rewrite <- app_assoc.
Qed.

Lemma load_loop_all w files docss :
  Forall2 (λ f docs, PyPDFLoader_load w f = Return docs) files docss →
  load_loop w files [] = Return (concat docss).
Proof.
  intros H. induction H as [|f docs files docss Hf _ IH]; [done|].
  simpl. unfold mbind, exc_bind, Py.bind. rewrite Hf.
  by rewrite load_loop_acc, IH.
Qed.

(** C5 as amended.  The build stops at the first upload that cannot be
    parsed: in every batch in which the uploads before some upload parse
    and that upload raises [e], [load_pdf_files] raises [e], whatever
    follows in the batch, and no tool is built.  In every batch in which
    every upload parses, the pages of all uploads, in upload order, are
    split with the configured splitter and indexed. *)
Theorem C5_unparsable_document_aborts_build (w : world) :
  (∀ (good rest : list string) (bad : string) (docs : list Document) (e : exn),
     load_loop w good [] = Return docs →
     PyPDFLoader_load w bad = Raise e →
     load_pdf_files w (good ++ bad :: rest)%list = Raise e) ∧
  (∀ (uploaded_files : list string) (docss : list (list Document)),
     Forall2 (λ f ds, PyPDFLoader_load w f = Return ds) uploaded_files docss →
     load_pdf_files w uploaded_files =
       (retriever ← FAISS_from_documents w
                      (split_documents w text_splitter (concat docss)) ;
        Return (mkTool "pdf_search" retriever pdf_search_description))).
Proof.
  split.
  - intros good rest bad docs e Hgood Hbad.
    unfold load_pdf_files. rewrite (load_loop_app w good _ [] docs Hgood).
    simpl. unfold mbind, exc_bind, Py.bind. by rewrite Hbad.
  - intros files docss Hall. unfold load_pdf_files.
    by rewrite (load_loop_all w _ docss Hall).
Qed.

Lemma C5_witness :
  (load_loop (Runs.world_of Runs.search_ok (λ _, Runs.echo)) ["a"] []
     = Return [Runs.page "a"] ∧
   PyPDFLoader_load (Runs.world_of Runs.search_ok (λ _, Runs.echo)) "corrupt"
     = Raise (IngestError "cannot parse") ∧
   load_pdf_files (Runs.world_of Runs.search_ok (λ _, Runs.echo))
     (["a"] ++ "corrupt" :: ["b"])%list
     = Raise (IngestError "cannot parse")) ∧
  (Forall2 (λ f ds, PyPDFLoader_load (Runs.world_of Runs.search_ok (λ _, Runs.echo)) f
                    = Return ds)
     ["a"; "b"] [[Runs.page "a"]; [Runs.page "b"]] ∧
   load_pdf_files (Runs.world_of Runs.search_ok (λ _, Runs.echo)) ["a"; "b"] =
     (retriever ← FAISS_from_documents (Runs.world_of Runs.search_ok (λ _, Runs.echo))
                    (split_documents (Runs.world_of Runs.search_ok (λ _, Runs.echo))
                       text_splitter (concat [[Runs.page "a"]; [Runs.page "b"]])) ;
      Return (mkTool "pdf_search" retriever pdf_search_description))).
Proof.
  split.
  - split; [reflexivity|]. split; [reflexivity|].
    exact (proj1 (C5_unparsable_document_aborts_build
      (Runs.world_of Runs.search_ok (λ _, Runs.echo))) ["a"] ["b"] "corrupt"
      [Runs.page "a"] (IngestError "cannot parse") eq_refl eq_refl).
  - assert (H : Forall2
      (λ f ds, PyPDFLoader_load (Runs.world_of Runs.search_ok (λ _, Runs.echo)) f
               = Return ds)
      ["a"; "b"] [[Runs.page "a"]; [Runs.page "b"]]).
    { repeat constructor. }
    split; [exact H|].
    exact (proj2 (C5_unparsable_document_aborts_build
      (Runs.world_of Runs.search_ok (λ _, Runs.echo))) ["a"; "b"] _ H).
Defined.

(** C5 as stated fails: in the batch [a; corrupt; b] the second upload
    cannot be parsed, and the build raises instead of producing the tool
    that the two remaining uploads give. *)
Lemma C5_counterexample :
  PyPDFLoader_load (Runs.world_of Runs.search_ok (λ _, Runs.echo)) "corrupt"
    = Raise (IngestError "cannot parse") ∧
  (∃ tool, load_pdf_files (Runs.world_of Runs.search_ok (λ _, Runs.echo)) ["a"; "b"]
             = Return tool) ∧
  ¬ ∃ tool, load_pdf_files (Runs.world_of Runs.search_ok (λ _, Runs.echo))
              ["a"; "corrupt"; "b"] = Return tool.
Proof.
  split; [reflexivity|]. split.
  - eexists. reflexivity.
  - intros [tool H]. vm_compute in H. discriminate.
Qed.

(** The splitter is configured with 1000 and 200, the overlap below the
    chunk size. *)
Lemma text_splitter_config :
  chunk_size text_splitter = 1000 ∧ chunk_overlap text_splitter = 200 ∧
  chunk_overlap text_splitter < chunk_size text_splitter.
Proof. simpl. lia. Qed.

(** ** Failures of the search provider *)

(** C7 as amended.  When the provider raises [e] on a query,
    [run_with_source] raises [e] to its caller, and so does the function
    of the tool that [search_web] builds: no observation string is made
    of the failure.  The script has no handler either: when the agent's
    call raises, the run of the script raises the same exception. *)
Theorem C7_search_error_propagates
    (search : string → exc results) (query : string) (e : exn) :
  search query = Raise e →
  run_with_source search query = Raise e ∧
  (∀ tool, search_web (Return search) = Return tool →
           name tool = "web_search" ∧ func tool query = Raise e) ∧
  (∀ w i σ tools u e',
     reset_clicked i = false →
     nonempty (OPENAI_API i) && nonempty (SERPAPI_API i) = true →
     build_tools w (pdf_docs i) = Return tools →
     user_input i = Some u →
     nonempty u = true →
     turn_response (AgentExecutor w tools) u (history_of σ session_id) = Raise e' →
     (main w i σ).2 = Raise e').
Proof.
  intros Hs.
  assert (Hrun : run_with_source search query = Raise e).
  { unfold run_with_source, mbind, exc_bind, Py.bind. by rewrite Hs. }
  split; [done|]. split.
  - intros tool Ht. unfold search_web in Ht. simpl in Ht.
    injection Ht as <-. by split.
  - intros w i σ tools u e' Hr Hk Ht Hu Hn Hfail.
    by rewrite (main_with_turn w i σ tools u Hr Hk Ht Hu Hn), Hfail.
Qed.

Lemma C7_witness :
  Runs.search_down "diet" = Raise (SearchError "provider unavailable") ∧
  run_with_source Runs.search_down "diet" = Raise (SearchError "provider unavailable").
Proof.
  split; [reflexivity|].
  exact (proj1 (C7_search_error_propagates Runs.search_down "diet" _ eq_refl)).
Defined.

(** C7 as stated fails: with a provider that is down, the web-search tool
    returns no observation, and a turn whose executor asks that tool and
    lets its exception through ends with the exception, not with an
    answer. *)
Lemma C7_counterexample :
  Runs.search_down "hello" = Raise (SearchError "provider unavailable") ∧
  (¬ ∃ observation,
       run_with_source Runs.search_down "hello" = Return observation) ∧
  (¬ ∃ v : view,
       (main (Runs.world_of Runs.search_down Runs.ask_web)
          (Runs.ask "hello") init_state).2 = Return v).
Proof.
  split; [reflexivity|]. split.
  - intros [obs H]. vm_compute in H. discriminate.
  - intros [v H]. vm_compute in H. discriminate.
Qed.

(** ** The states the script can reach *)

Lemma main_state_cases w i σ :
  (main w i σ).1 = (reset σ).1 ∨
  (main w i σ).1 = σ ∨
  (main w i σ).1 = with_session session_id σ ∨
  ∃ u response, (main w i σ).1 = after_turn σ u response.
Proof.
  unfold main. destruct (reset_clicked i); [by left|].
  destruct (nonempty (OPENAI_API i) && nonempty (SERPAPI_API i)); [|by right; left].
  unfold mbind, St_bind, st_bind, lift.
  destruct (build_tools w (pdf_docs i)) as [tools|e]; [|by right; left].
  destruct (user_input i) as [u|]; [|by right; left].
  destruct (nonempty u); [|by right; left].
  rewrite main_turn_eq.
  destruct (turn_response _ u _) as [response|e].
  - right; right; right. by exists u, response.
  - by right; right; left.
Qed.

Lemma store_wf_with_session σ sid : store_wf σ → store_wf (with_session sid σ).
Proof.
  intros Hwf. unfold with_session.
  destruct (st_session_history σ !! sid) eqn:Hsid; [done|].
  intros sid' l. simpl. destruct (decide (sid = sid')) as [<-|Hne].
  - rewrite lookup_insert_eq. intros [= <-]. by rewrite lookup_insert_eq.
  - rewrite lookup_insert_ne by done. intros Hl.
    destruct (Hwf sid' l Hl) as [h Hh]. apply lookup_insert_is_Some. right.
    split; [|by eexists]. intros <-. by rewrite fresh_loc_unused in Hh.
Qed.

Lemma dom_with_session σ sid :
  dom (st_session_history (with_session sid σ)) ⊆ {[ sid ]} ∪ dom (st_session_history σ).
Proof.
  unfold with_session. destruct (st_session_history σ !! sid); simpl.
  - apply union_subseteq_r.
  - by rewrite dom_insert_L.
Qed.

Lemma single_session_init : single_session init_state.
Proof.
  split; [|split].
  - simpl. rewrite dom_empty_L. apply empty_subseteq.
  - apply store_wf_init.
  - reflexivity.
Qed.

Lemma single_session_main w i σ :
  single_session σ → single_session (main w i σ).1.
Proof.
  intros (Hdom & Hwf & Hmsgs).
  destruct (main_state_cases w i σ) as [->|[->|[->|(u & response & ->)]]].
  - unfold single_session, store_wf, history_of, reset. simpl.
    split; [|split].
    + rewrite dom_empty_L. apply empty_subseteq.
    + intros sid l H. by rewrite lookup_empty in H.
    + by rewrite lookup_empty.
  - done.
  - split; [|split].
    + etrans; [apply dom_with_session|]. by apply union_least.
    + by apply store_wf_with_session.
    + by rewrite st_messages_with_session, history_of_with_session.
  - split; [|split].
    + simpl. etrans; [apply dom_with_session|]. by apply union_least.
    + intros sid l Hl. simpl in *.
      apply (store_wf_with_session σ session_id Hwf) in Hl.
      rewrite !lookup_alter_is_Some. done.
    + rewrite history_of_after_turn by done. simpl.
      by rewrite st_messages_with_session, Hmsgs, <- app_assoc.
Qed.

Lemma reachable_single_session σ : reachable σ → single_session σ.
Proof.
  revert σ. apply (rtc_ind_r single_session init_state).
  - apply single_session_init.
  - intros σ1 σ2 _ Hstep IH. destruct Hstep as [w i].
    by apply single_session_main.
Qed.

(** C9.  In every state the script can reach from its first run, through
    any sequence of runs, turns and resets, the store of histories holds
    no key other than [session_id] (the constant ["default_session"]), so
    at most one history exists; that one history is where every message
    of every turn since the last reset went: it equals the display list. *)
Theorem C9_single_constant_session (σ : state) :
  reachable σ →
  session_id = "default_session" ∧
  dom (st_session_history σ) ⊆ {[ session_id ]} ∧
  (size (st_session_history σ) ≤ 1)%nat ∧
  (∀ sid, sid ≠ session_id →
     st_session_history σ !! sid = None ∧ history_of σ sid = []) ∧
  history_of σ session_id = st_messages σ.
Proof.
  intros Hreach. destruct (reachable_single_session σ Hreach) as (Hdom & Hwf & Hm).
  split; [done|]. split; [done|]. split; [|split; [|done]].
  - rewrite <- size_dom. apply subseteq_size in Hdom.
    by rewrite size_singleton in Hdom.
  - intros sid Hne.
    assert (Hnone : st_session_history σ !! sid = None).
    { apply not_elem_of_dom. intros Hin. apply Hdom in Hin.
      by apply elem_of_singleton in Hin. }
    split; [done|]. unfold history_of. by rewrite Hnone.
Qed.

Lemma C9_witness :
  reachable
    (main (Runs.world_of Runs.search_ok (λ _, Runs.echo)) (Runs.ask "hello") init_state).1 ∧
  dom (st_session_history
    (main (Runs.world_of Runs.search_ok (λ _, Runs.echo)) (Runs.ask "hello") init_state).1)
    ⊆ {[ session_id ]}.
Proof.
  assert (H : reachable
    (main (Runs.world_of Runs.search_ok (λ _, Runs.echo)) (Runs.ask "hello") init_state).1).
  { apply rtc_once. constructor. }
  split; [exact H|].
  exact (proj1 (proj2 (C9_single_constant_session _ H))).
Defined.

(** ** The model at work *)

Example search_ok_rendering :
  run_with_source Runs.search_ok "diet" =
    Return ("- [A](http://a) (S)" ++ LF ++ "  t" ++ LF
              ++ "- B (출처: None)" ++ LF ++ "  u").
Proof. reflexivity. Qed.

Example six_results_show_five :
  format_results {[ "organic_results" := replicate 6 Runs.r2 ]} =
    join LF (replicate 5 (format_result Runs.r2)).
Proof. reflexivity. Qed.

Example missing_key_gives_sentinel : format_results ∅ = no_results.
Proof. reflexivity. Qed.

Example two_turns_share_the_history :
  let w := Runs.world_of Runs.search_ok (λ _, Runs.echo) in
  let σ1 := (main w (Runs.ask "hello") init_state).1 in
  let σ2 := (main w (Runs.ask "more") σ1).1 in
  history_of σ2 session_id =
    [ mkMessage "user" "hello"; mkMessage "assistant" "hello";
      mkMessage "user" "more";
      mkMessage "assistant"
        (agent_input "more" [mkMessage "user" "hello"; mkMessage "assistant" "hello"]) ].
Proof. vm_compute. reflexivity. Qed.

Example reset_forgets_the_history :
  let w := Runs.world_of Runs.search_ok (λ _, Runs.echo) in
  let σ1 := (main w (Runs.ask "hello") init_state).1 in
  let pressed := {| OPENAI_API := "sk-1"; SERPAPI_API := "k-2"; pdf_docs := [];
                    reset_clicked := true; user_input := None |} in
  main w pressed σ1 =
    ({| st_messages := []; st_session_history := ∅; heap := heap σ1 |}, Return Rerun) ∧
  history_of (main w pressed σ1).1 session_id = [].
Proof. split; reflexivity. Qed.


(** * Further properties of the script *)

(** ** The web-search adapter, continued *)

Lemma format_results_take res :
  format_results res =
    match take 5 (organic_of res) with
    | [] => no_results
    | shown => join LF (map format_result shown)
    end.
Proof.
  unfold format_results, organic_of.
  by destruct (take 5 (default [] (res !! "organic_results"))).
Qed.

Lemma join_starts_with_dash r l :
  ∃ rest, join LF (map format_result (r :: l)) = String "-" rest.
Proof.
  destruct (format_result_cases r) as [rest Hr].
  destruct l as [|r' l]; simpl map.
  - unfold join. simpl. rewrite Hr. eauto.
  - rewrite join_cons, Hr. eauto.
Qed.

(** X1.  The fixed sentence tells an empty search apart: when the provider
    answers, [run_with_source] returns [no_results] exactly when the
    answer holds no organic result (the key missing, or its list empty);
    no rendering of actual results can be mistaken for it. *)
Theorem no_results_iff_nothing_found
    (search : string → exc results) (query : string) (res : results) :
  search query = Return res →
  (run_with_source search query = Return no_results ↔ organic_of res = []).
Proof.
  intros Hs. unfold run_with_source, mbind, exc_bind, Py.bind. rewrite Hs.
  rewrite format_results_take. split.
  - intros H. destruct (organic_of res) as [|r l]; [done|].
    change (take 5 (r :: l)) with (r :: take 4 l) in H.
    cbv beta iota in H.
    destruct (join_starts_with_dash r (take 4 l)) as [rest Hj].
    rewrite Hj in H. discriminate H.
  - by intros ->.
Qed.

Lemma no_results_iff_nothing_found_witness :
  Runs.search_ok "diet" = Return {[ "organic_results" := [Runs.r1; Runs.r2] ]} ∧
  (run_with_source Runs.search_ok "diet" = Return no_results ↔
   organic_of {[ "organic_results" := [Runs.r1; Runs.r2] ]} = []).
Proof.
  split; [reflexivity|].
  exact (no_results_iff_nothing_found Runs.search_ok "diet" _ eq_refl).
Defined.

(** X2.  Only the first five organic results count: two answers of the
    provider that agree on them give the same tool output, whatever else
    they hold (further results, other keys of the answer). *)
Theorem results_after_the_fifth_are_ignored
    (search1 search2 : string → exc results) (query : string)
    (res1 res2 : results) :
  search1 query = Return res1 →
  search2 query = Return res2 →
  take 5 (organic_of res1) = take 5 (organic_of res2) →
  run_with_source search1 query = run_with_source search2 query.
Proof.
  intros H1 H2 Htake. unfold run_with_source, mbind, exc_bind, Py.bind.
  rewrite H1, H2, !format_results_take. by rewrite Htake.
Qed.

Lemma results_after_the_fifth_are_ignored_witness :
  Runs.search_six "q" = Return {[ "organic_results" := replicate 6 Runs.r2 ]} ∧
  Runs.search_five "q" =
    Return {[ "organic_results" := replicate 5 Runs.r2; "search_metadata" := [] ]} ∧
  run_with_source Runs.search_six "q" = run_with_source Runs.search_five "q".
Proof.
  split; [reflexivity|]. split; [reflexivity|].
  exact (results_after_the_fifth_are_ignored Runs.search_six Runs.search_five "q"
           _ _ eq_refl eq_refl eq_refl).
Defined.

(** X3.  A result is rendered from its title, link, source and snippet
    alone: setting or removing any other field leaves the line as it
    was. *)
Theorem other_fields_do_not_show (r : result) (k v : string) :
  k ∉ ["title"; "link"; "source"; "snippet"] →
  format_result (<[k := v]> r) = format_result r ∧
  format_result (delete k r) = format_result r.
Proof.
  intros Hk.
  assert (Hne : k ≠ "title" ∧ k ≠ "link" ∧ k ≠ "source" ∧ k ≠ "snippet").
  { repeat split; intros ->; apply Hk; repeat constructor. }
  destruct Hne as (H1 & H2 & H3 & H4). unfold format_result.
  by rewrite !lookup_insert_ne, !lookup_delete_ne.
Qed.

Lemma other_fields_do_not_show_witness :
  ("position" ∉ ["title"; "link"; "source"; "snippet"]) ∧
  format_result (<["position" := "1"]> Runs.r1) = format_result Runs.r1.
Proof.
  assert (H : "position" ∉ ["title"; "link"; "source"; "snippet"]).
  { intros Hin. apply list_elem_of_In in Hin. simpl in Hin.
    intuition discriminate. }
  split; [exact H|].
  exact (proj1 (other_fields_do_not_show Runs.r1 "position" "1" H)).
Defined.

(** X4.  An empty link counts as no link: a result whose link is the
    empty string is rendered exactly as the same result without a link
    field, in the form that labels the source. *)
Theorem empty_link_is_no_link (r : result) :
  format_result (<["link" := ""]> r) = format_result (delete "link" r) ∧
  format_result (<["link" := ""]> r) =
    "- " ++ str (r !! "title") ++ " (출처: " ++ str (r !! "source") ++ ")"
      ++ LF ++ "  " ++ str (r !! "snippet").
Proof.
  unfold format_result.
  rewrite lookup_insert_eq, lookup_delete_eq. simpl.
  by rewrite !lookup_insert_ne, !lookup_delete_ne.
Qed.

(** ** The document indexer and the tool list, continued *)

Lemma load_loop_Return_inv w files : ∀ docs,
  load_loop w files [] = Return docs →
  ∃ docss,
    Forall2 (λ f ds, PyPDFLoader_load w f = Return ds) files docss ∧
    docs = concat docss.
Proof.
  induction files as [|f files IH]; intros docs H.
  - simpl in H. injection H as <-. exists []. by split; [constructor|].
  - simpl in H. unfold mbind, exc_bind, Py.bind in H.
    destruct (PyPDFLoader_load w f) as [d|e] eqn:Hf; [|done].
    simpl in H. rewrite load_loop_acc in H.
    destruct (load_loop w files []) as [ds|] eqn:Hrest; [|done].
    injection H as <-. destruct (IH ds eq_refl) as (docss & Hall & ->).
    exists (d :: docss). split; [by constructor|done].
Qed.

Lemma load_pdf_files_named w files tool :
  load_pdf_files w files = Return tool →
  ∃ retriever, tool = mkTool "pdf_search" retriever pdf_search_description.
Proof.
  unfold load_pdf_files, mbind, exc_bind, Py.bind.
  destruct (load_loop w files []); [|done].
  destruct (FAISS_from_documents w _) as [retriever|]; [|done].
  intros [= <-]. by exists retriever.
Qed.

(** X5.  The retrieval tool exists exactly when every upload parses and
    the vector store accepts the split pages: then it is the tool named
    [pdf_search] around the retriever built from the pages of all uploads
    in upload order, split with the configured splitter. *)
Theorem load_pdf_files_succeeds_iff
    (w : world) (uploaded_files : list string) (tool : Tool) :
  load_pdf_files w uploaded_files = Return tool ↔
  ∃ docss retriever,
    Forall2 (λ f ds, PyPDFLoader_load w f = Return ds) uploaded_files docss ∧
    FAISS_from_documents w (split_documents w text_splitter (concat docss))
      = Return retriever ∧
    tool = mkTool "pdf_search" retriever pdf_search_description.
Proof.
  unfold load_pdf_files, mbind, exc_bind, Py.bind. split.
  - destruct (load_loop w uploaded_files []) as [docs|] eqn:Hl; [|done].
    destruct (load_loop_Return_inv w _ docs Hl) as (docss & Hall & ->).
    destruct (FAISS_from_documents w _) as [retriever|] eqn:Hf; [|done].
    intros [= <-]. by exists docss, retriever.
  - intros (docss & retriever & Hall & Hf & ->).
    by rewrite (load_loop_all w _ docss Hall), Hf.
Qed.

(** X6.  The tools handed to the agent: when the tool list is built, it
    is the web-search tool alone if nothing was uploaded, and the
    retrieval tool followed by the web-search tool otherwise; the names
    are distinct, and the web-search tool runs [run_with_source] on the
    provider's search. *)
Theorem build_tools_offers
    (w : world) (docs : list string) (tools : list Tool) :
  build_tools w docs = Return tools →
  map name tools =
    match docs with
    | [] => ["web_search"]
    | _ :: _ => ["pdf_search"; "web_search"]
    end ∧
  NoDup (map name tools) ∧
  ∃ search,
    SerpAPIWrapper w = Return search ∧
    last tools =
      Some (mkTool "web_search" (run_with_source search) web_search_description).
Proof.
  unfold build_tools, search_web, mbind, exc_bind, Py.bind. intros H.
  destruct docs as [|d docs].
  - destruct (SerpAPIWrapper w) as [search|]; [|done].
    injection H as <-. simpl. split; [done|]. split; [|by exists search].
    apply NoDup_singleton.
  - destruct (load_pdf_files w (d :: docs)) as [pdf|] eqn:Hpdf; [|done].
    apply load_pdf_files_named in Hpdf as [retriever ->].
    destruct (SerpAPIWrapper w) as [search|]; [|done].
    injection H as <-. simpl. split; [done|]. split; [|by exists search].
    apply NoDup_cons. split; [|apply NoDup_singleton].
    intros Hin. apply list_elem_of_singleton in Hin. discriminate Hin.
Qed.

Lemma build_tools_offers_witness :
  build_tools (Runs.world_of Runs.search_ok (λ _, Runs.echo)) ["a"; "b"] =
    Return [mkTool "pdf_search" (λ _, Return (join LF ["a"; "b"])) pdf_search_description;
            mkTool "web_search" (run_with_source Runs.search_ok) web_search_description] ∧
  map name [mkTool "pdf_search" (λ _, Return (join LF ["a"; "b"])) pdf_search_description;
            mkTool "web_search" (run_with_source Runs.search_ok) web_search_description]
    = ["pdf_search"; "web_search"].
Proof.
  split; [reflexivity|].
  exact (proj1 (build_tools_offers
    (Runs.world_of Runs.search_ok (λ _, Runs.echo)) ["a"; "b"] _ eq_refl)).
Defined.

(** X7.  A failure while the tools are set up ends the run before the
    user's text is looked at: when an upload cannot be parsed or indexed,
    or, these having succeeded, the search wrapper cannot be constructed,
    the run raises that exception, renders nothing and leaves the stored
    conversation untouched. *)
Theorem failed_tool_setup_aborts_run
    (w : world) (i : run_inputs) (σ : state) (e : exn) :
  reset_clicked i = false →
  nonempty (OPENAI_API i) && nonempty (SERPAPI_API i) = true →
  (pdf_docs i ≠ [] ∧ load_pdf_files w (pdf_docs i) = Raise e) ∨
  ((pdf_docs i = [] ∨ ∃ tool, load_pdf_files w (pdf_docs i) = Return tool) ∧
   SerpAPIWrapper w = Raise e) →
  main w i σ = (σ, Raise e).
Proof.
  intros Hr Hk Hcause.
  assert (Hb : build_tools w (pdf_docs i) = Raise e).
  { unfold build_tools, search_web, mbind, exc_bind, Py.bind.
    destruct Hcause as [[Hne Hload]|[Hpdf Hwrap]].
    - destruct (pdf_docs i); [done|]. by rewrite Hload.
    - rewrite Hwrap. destruct Hpdf as [->|[tool Hload]]; [done|].
      destruct (pdf_docs i); [done|]. by rewrite Hload. }
  unfold main. rewrite Hr, Hk. unfold mbind, St_bind, st_bind, lift.
  by rewrite Hb.
Qed.

Lemma failed_tool_setup_aborts_run_witness :
  reset_clicked
    {| OPENAI_API := "sk-1"; SERPAPI_API := "k-2"; pdf_docs := ["a"; "corrupt"];
       reset_clicked := false; user_input := Some "hello" |} = false ∧
  main (Runs.world_of Runs.search_ok (λ _, Runs.echo))
    {| OPENAI_API := "sk-1"; SERPAPI_API := "k-2"; pdf_docs := ["a"; "corrupt"];
       reset_clicked := false; user_input := Some "hello" |} init_state
  = (init_state, Raise (IngestError "cannot parse")).
Proof.
  split; [reflexivity|].
  apply failed_tool_setup_aborts_run; [reflexivity|reflexivity|].
  left. split; [discriminate|reflexivity].
Defined.

(** ** Runs of the script, continued *)

(** X8.  Without a reset, a run changes the stored conversation only when
    both keys are entered and a non-empty text was submitted.  With a key
    missing the run only shows the warning, whatever was typed or
    uploaded; with the keys and no text it shows the conversation as it
    stands. *)
Theorem idle_run_changes_nothing (w : world) (i : run_inputs) (σ : state) :
  reset_clicked i = false →
  nonempty (OPENAI_API i) && nonempty (SERPAPI_API i) = false ∨
  user_input i = None ∨ user_input i = Some "" →
  (main w i σ).1 = σ ∧
  (nonempty (OPENAI_API i) && nonempty (SERPAPI_API i) = false →
     main w i σ = (σ, Return (Warning keys_warning))) ∧
  (nonempty (OPENAI_API i) && nonempty (SERPAPI_API i) = true →
     ∀ tools, build_tools w (pdf_docs i) = Return tools →
       main w i σ = (σ, Return (Chat (st_messages σ)))).
Proof.
  intros Hr Hidle. unfold main. rewrite Hr.
  destruct (nonempty (OPENAI_API i) && nonempty (SERPAPI_API i)) eqn:Hk.
  - destruct Hidle as [?|Hin]; [done|].
    unfold mbind, St_bind, st_bind, lift.
    destruct (build_tools w (pdf_docs i)) as [tools|e].
    + split; [|split; [done|]].
      * by destruct Hin as [->| ->].
      * intros _ tools' [= <-]. by destruct Hin as [->| ->].
    + split; [done|]. split; [done|]. by intros _ tools' ?.
  - split; [done|]. split; [done|]. done.
Qed.

Lemma idle_run_changes_nothing_witness :
  reset_clicked
    {| OPENAI_API := "sk-1"; SERPAPI_API := ""; pdf_docs := ["a"];
       reset_clicked := false; user_input := Some "hello" |} = false ∧
  main (Runs.world_of Runs.search_ok (λ _, Runs.echo))
    {| OPENAI_API := "sk-1"; SERPAPI_API := ""; pdf_docs := ["a"];
       reset_clicked := false; user_input := Some "hello" |} init_state
  = (init_state, Return (Warning keys_warning)).
Proof.
  split; [reflexivity|].
  refine (proj1 (proj2 (idle_run_changes_nothing
    (Runs.world_of Runs.search_ok (λ _, Runs.echo))
    {| OPENAI_API := "sk-1"; SERPAPI_API := ""; pdf_docs := ["a"];
       reset_clicked := false; user_input := Some "hello" |}
    init_state eq_refl (or_introl eq_refl))) eq_refl).
Defined.

(** ** Turns, continued *)

(** X9.  A result of the executor without an ["output"] entry is an
    error of the turn: the run raises [KeyError] for that key, and, as
    for any failed turn, neither the display list nor any history gets a
    message. *)
Theorem result_without_output_raises_KeyError
    (w : world) (i : run_inputs) (σ : state) (tools : list Tool)
    (u : string) (result : gmap string string) :
  reset_clicked i = false →
  nonempty (OPENAI_API i) && nonempty (SERPAPI_API i) = true →
  build_tools w (pdf_docs i) = Return tools →
  user_input i = Some u →
  nonempty u = true →
  AgentExecutor w tools {[ "input" := agent_input u (history_of σ session_id) ]}
    = Return result →
  result !! "output" = None →
  (main w i σ).2 = Raise (KeyError "output") ∧
  st_messages (main w i σ).1 = st_messages σ ∧
  (∀ sid, history_of (main w i σ).1 sid = history_of σ sid).
Proof.
  intros Hr Hk Ht Hu Hn Hres Hout.
  rewrite (main_with_turn w i σ tools u Hr Hk Ht Hu Hn).
  rewrite turn_response_agent_input.
  unfold chat_with_agent, mbind, exc_bind, Py.bind, getitem.
  rewrite Hres, Hout. simpl. split; [done|]. split.
  - apply st_messages_with_session.
  - intros sid. apply history_of_with_session.
Qed.

Lemma result_without_output_raises_KeyError_witness :
  AgentExecutor (Runs.world_of Runs.search_ok (λ _ _, Return {[ "answer" := "hi" ]}))
    [mkTool "web_search" (run_with_source Runs.search_ok) web_search_description]
    {[ "input" := agent_input "hello" (history_of init_state session_id) ]}
    = Return {[ "answer" := "hi" ]} ∧
  (main (Runs.world_of Runs.search_ok (λ _ _, Return {[ "answer" := "hi" ]}))
     (Runs.ask "hello") init_state).2 = Raise (KeyError "output").
Proof.
  split; [reflexivity|].
  exact (proj1 (result_without_output_raises_KeyError
    (Runs.world_of Runs.search_ok (λ _ _, Return {[ "answer" := "hi" ]}))
    (Runs.ask "hello") init_state _ "hello" {[ "answer" := "hi" ]}
    eq_refl eq_refl eq_refl eq_refl eq_refl eq_refl eq_refl)).
Defined.

Lemma reset_state w i σ :
  reset_clicked i = true →
  main w i σ =
    ({| st_messages := []; st_session_history := ∅; heap := heap σ |}, Return Rerun).
Proof. intros Hr. unfold main. by rewrite Hr. Qed.

Lemma store_wf_empty msgs hp :
  store_wf {| st_messages := msgs; st_session_history := ∅; heap := hp |}.
Proof. intros sid l H. simpl in H. by rewrite lookup_empty in H. Qed.

(** X10.  Pressing reset wins over everything else in the run: keys, text
    and uploads are not looked at, and both the display list and the
    histories are emptied.  The turn that follows starts afresh, whatever
    was stored before: the agent is called on the user's text alone, and
    afterwards the conversation consists of that turn's two messages. *)
Theorem turn_after_reset_starts_afresh
    (w0 : world) (i0 : run_inputs) (σ : state)
    (w : world) (i : run_inputs) (tools : list Tool) (u response : string) :
  reset_clicked i0 = true →
  reset_clicked i = false →
  nonempty (OPENAI_API i) && nonempty (SERPAPI_API i) = true →
  build_tools w (pdf_docs i) = Return tools →
  user_input i = Some u →
  nonempty u = true →
  chat_with_agent u (AgentExecutor w tools) = Return response →
  let σ0 := (main w0 i0 σ).1 in
  let turn := [mkMessage "user" u; mkMessage "assistant" response] in
  (main w0 i0 σ).2 = Return Rerun ∧
  st_messages σ0 = [] ∧
  (∀ sid, history_of σ0 sid = []) ∧
  (main w i σ0).2 = Return (Chat turn) ∧
  st_messages (main w i σ0).1 = turn ∧
  history_of (main w i σ0).1 session_id = turn.
Proof.
  intros Hr0 Hr Hk Ht Hu Hn Hresp σ0 turn. subst σ0.
  rewrite (reset_state w0 i0 σ Hr0). simpl.
  set (σ0 := {| st_messages := []; st_session_history := ∅; heap := heap σ |}).
  assert (Hh : ∀ sid, history_of σ0 sid = []).
  { intros sid. unfold history_of. simpl. by rewrite lookup_empty. }
  split; [done|]. split; [done|]. split; [done|].
  rewrite (main_with_turn w i σ0 tools u Hr Hk Ht Hu Hn), Hh. simpl.
  rewrite Hresp. simpl.
  rewrite history_of_after_turn by apply store_wf_empty.
  rewrite st_messages_with_session, Hh. done.
Qed.

Lemma turn_after_reset_starts_afresh_witness :
  chat_with_agent "again"
    (AgentExecutor (Runs.world_of Runs.search_ok (λ _, Runs.echo))
       [mkTool "web_search" (run_with_source Runs.search_ok) web_search_description])
    = Return "again" ∧
  history_of
    (main (Runs.world_of Runs.search_ok (λ _, Runs.echo)) (Runs.ask "again")
       (main (Runs.world_of Runs.search_ok (λ _, Runs.echo))
          {| OPENAI_API := ""; SERPAPI_API := ""; pdf_docs := [];
             reset_clicked := true; user_input := Some "dropped" |}
          (main (Runs.world_of Runs.search_ok (λ _, Runs.echo))
             (Runs.ask "hello") init_state).1).1).1
    session_id
  = [mkMessage "user" "again"; mkMessage "assistant" "again"].
Proof.
  split; [reflexivity|].
  exact (proj2 (proj2 (proj2 (proj2 (proj2 (turn_after_reset_starts_afresh
    (Runs.world_of Runs.search_ok (λ _, Runs.echo))
    {| OPENAI_API := ""; SERPAPI_API := ""; pdf_docs := [];
       reset_clicked := true; user_input := Some "dropped" |}
    (main (Runs.world_of Runs.search_ok (λ _, Runs.echo))
       (Runs.ask "hello") init_state).1
    (Runs.world_of Runs.search_ok (λ _, Runs.echo)) (Runs.ask "again")
    _ "again" "again" eq_refl eq_refl eq_refl eq_refl eq_refl eq_refl eq_refl)))))).
Defined.

(** X11.  The agent cannot tell a real history from a typed one: a first
    message that spells out what [agent_input] would make of text [u] and
    history [h] reaches the executor exactly as [u] does in a session
    whose history is [h]. *)
Theorem typed_history_passes_for_real (ag : executor) (u : string) (h : list Message) :
  turn_response ag (agent_input u h) [] = turn_response ag u h ∧
  agent_input (agent_input u h) [] = agent_input u h.
Proof. split; [|done]. by rewrite !turn_response_agent_input. Qed.

Lemma with_session_idem σ sid :
  with_session sid (with_session sid σ) = with_session sid σ ∧
  st_session_history (with_session sid σ) !! sid = Some (session_loc sid σ).
Proof.
  assert (H : st_session_history (with_session sid σ) !! sid = Some (session_loc sid σ)).
  { unfold with_session, session_loc.
    destruct (st_session_history σ !! sid) as [l|] eqn:Hs; simpl; [done|].
    by rewrite lookup_insert_eq. }
  split; [|done]. unfold with_session at 1. by rewrite H.
Qed.

(** The runs of the script from [σ] and from [σ] with the session
    created show and store the same conversation. *)
Lemma main_from_with_session w i σ :
  store_wf σ →
  (main w i (with_session session_id σ)).2 = (main w i σ).2 ∧
  st_messages (main w i (with_session session_id σ)).1 = st_messages (main w i σ).1 ∧
  history_of (main w i (with_session session_id σ)).1 session_id
    = history_of (main w i σ).1 session_id.
Proof.
  intros Hwf. pose proof (store_wf_with_session σ session_id Hwf) as Hwf'.
  unfold main. destruct (reset_clicked i).
  { unfold reset, history_of. simpl. by rewrite lookup_empty. }
  destruct (nonempty (OPENAI_API i) && nonempty (SERPAPI_API i)).
  2:{ simpl. split; [done|].
      by rewrite st_messages_with_session, history_of_with_session. }
  unfold mbind, St_bind, st_bind, lift.
  destruct (build_tools w (pdf_docs i)) as [tools|e].
  2:{ simpl. split; [done|].
      by rewrite st_messages_with_session, history_of_with_session. }
  assert (Hskip :
    (print_messages (with_session session_id σ)).2 = (print_messages σ).2 ∧
    st_messages (with_session session_id σ) = st_messages σ ∧
    history_of (with_session session_id σ) session_id = history_of σ session_id).
  { unfold print_messages. simpl.
    by rewrite st_messages_with_session, history_of_with_session. }
  destruct (user_input i) as [u|]; [|exact Hskip].
  destruct (nonempty u); [|exact Hskip].
  rewrite !main_turn_eq, history_of_with_session.
  destruct (turn_response _ u _) as [response|e]; simpl.
  - rewrite !history_of_after_turn by done.
    by rewrite !st_messages_with_session, history_of_with_session.
  - destruct (with_session_idem σ session_id) as [-> _]. done.
Qed.

(** X12.  A failed turn leaves no trace for later runs: from a
    well-formed store, whatever run comes after a turn that raised (any
    inputs, any behaviour of the collaborators) renders the same, and
    leaves the same display list and the same history, as it would have
    without the failed turn. *)
Theorem failed_turn_is_invisible_afterwards
    (w : world) (i : run_inputs) (σ : state) (tools : list Tool)
    (u : string) (e : exn) (w' : world) (i' : run_inputs) :
  store_wf σ →
  reset_clicked i = false →
  nonempty (OPENAI_API i) && nonempty (SERPAPI_API i) = true →
  build_tools w (pdf_docs i) = Return tools →
  user_input i = Some u →
  nonempty u = true →
  turn_response (AgentExecutor w tools) u (history_of σ session_id) = Raise e →
  let σf := (main w i σ).1 in
  (main w' i' σf).2 = (main w' i' σ).2 ∧
  st_messages (main w' i' σf).1 = st_messages (main w' i' σ).1 ∧
  history_of (main w' i' σf).1 session_id = history_of (main w' i' σ).1 session_id.
Proof.
  intros Hwf Hr Hk Ht Hu Hn Hfail σf. subst σf.
  rewrite (main_with_turn w i σ tools u Hr Hk Ht Hu Hn), Hfail. simpl.
  by apply main_from_with_session.
Qed.

Lemma failed_turn_is_invisible_afterwards_witness :
  store_wf init_state ∧
  turn_response (AgentExecutor (Runs.world_of Runs.search_ok (λ _, Runs.failing))
                   [mkTool "web_search" (run_with_source Runs.search_ok)
                      web_search_description])
    "hello" (history_of init_state session_id)
  = Raise (AgentError "model call failed") ∧
  (main (Runs.world_of Runs.search_ok (λ _, Runs.echo)) (Runs.ask "again")
     (main (Runs.world_of Runs.search_ok (λ _, Runs.failing))
        (Runs.ask "hello") init_state).1).2
  = (main (Runs.world_of Runs.search_ok (λ _, Runs.echo)) (Runs.ask "again")
       init_state).2.
Proof.
  split; [exact store_wf_init|]. split; [reflexivity|].
  exact (proj1 (failed_turn_is_invisible_afterwards
    (Runs.world_of Runs.search_ok (λ _, Runs.failing)) (Runs.ask "hello") init_state
    _ "hello" _ (Runs.world_of Runs.search_ok (λ _, Runs.echo)) (Runs.ask "again")
    store_wf_init eq_refl eq_refl eq_refl eq_refl eq_refl eq_refl)).
Defined.

Lemma main_state_cases_nonempty w i σ :
  (main w i σ).1 = (reset σ).1 ∨
  (main w i σ).1 = σ ∨
  (main w i σ).1 = with_session session_id σ ∨
  ∃ u response, u ≠ "" ∧ (main w i σ).1 = after_turn σ u response.
Proof.
  unfold main. destruct (reset_clicked i); [by left|].
  destruct (nonempty (OPENAI_API i) && nonempty (SERPAPI_API i)); [|by right; left].
  unfold mbind, St_bind, st_bind, lift.
  destruct (build_tools w (pdf_docs i)) as [tools|e]; [|by right; left].
  destruct (user_input i) as [u|]; [|by right; left].
  destruct (nonempty u) eqn:Hn; [|by right; left].
  rewrite main_turn_eq.
  destruct (turn_response _ u _) as [response|e].
  - right; right; right. exists u, response. split; [|done].
    intros ->. discriminate Hn.
  - by right; right; left.
Qed.

Lemma transcript_snoc turns u response :
  transcript (turns ++ [(u, response)])%list =
    ((transcript turns ++ [mkMessage "user" u]) ++ [mkMessage "assistant" response])%list.
Proof.
  unfold transcript. rewrite flat_map_app. simpl.
  by rewrite <- app_assoc.
Qed.

(** X13.  Whatever the script has been through, the conversation it
    shows is a sequence of completed turns: the display list, and with it
    the history of the session, consists of pairs of a user message with
    a non-empty text followed by an assistant message; no message stands
    alone and no two messages of one role follow each other. *)
Theorem conversation_is_whole_turns (σ : state) :
  reachable σ →
  ∃ turns : list (string * string),
    st_messages σ = transcript turns ∧
    history_of σ session_id = transcript turns ∧
    Forall (λ t, t.1 ≠ "") turns ∧
    length (st_messages σ) = 2 * length turns.
Proof.
  intros Hreach.
  assert (Hlen : ∀ turns, length (transcript turns) = 2 * length turns).
  { induction turns as [|t turns IH]; [done|].
    unfold transcript in *. simpl. rewrite IH. lia. }
  assert (Hmain : ∃ turns, st_messages σ = transcript turns ∧ Forall (λ t, t.1 ≠ "") turns).
  { revert σ Hreach.
    apply (rtc_ind_r (λ σ, ∃ turns, st_messages σ = transcript turns ∧
                                     Forall (λ t, t.1 ≠ "") turns) init_state).
    - by exists [].
    - intros σ1 σ2 _ [w i] (turns & Hm & Hne).
      destruct (main_state_cases_nonempty w i σ1)
        as [->|[->|[->|(u & response & Hu & ->)]]].
      + by exists [].
      + by exists turns.
      + exists turns. by rewrite st_messages_with_session.
      + exists (turns ++ [(u, response)])%list. split.
        * simpl. by rewrite st_messages_with_session, Hm, transcript_snoc.
        * apply Forall_app. split; [done|]. by constructor. }
  destruct Hmain as (turns & Hm & Hne). exists turns.
  destruct (reachable_single_session σ Hreach) as (_ & _ & Heq).
  split; [done|]. split; [by rewrite <- Heq|]. split; [done|].
  by rewrite Hm, Hlen.
Qed.

Lemma conversation_is_whole_turns_witness :
  reachable
    (main (Runs.world_of Runs.search_ok (λ _, Runs.echo)) (Runs.ask "hello") init_state).1 ∧
  ∃ turns : list (string * string),
    st_messages
      (main (Runs.world_of Runs.search_ok (λ _, Runs.echo)) (Runs.ask "hello")
         init_state).1 = transcript turns.
Proof.
  assert (H : reachable
    (main (Runs.world_of Runs.search_ok (λ _, Runs.echo)) (Runs.ask "hello") init_state).1).
  { apply rtc_once. constructor. }
  split; [exact H|].
  destruct (conversation_is_whole_turns _ H) as (turns & Hm & _).
  exists turns. exact Hm.
Defined.

(** ** Session memory, continued *)

Lemma store_inj_with_session σ sid :
  store_wf σ → store_inj σ → store_inj (with_session sid σ).
Proof.
  intros Hwf Hinj. unfold with_session.
  destruct (st_session_history σ !! sid) eqn:Hsid; [done|].
  assert (Hfresh : ∀ s, st_session_history σ !! s ≠ Some (fresh (dom (heap σ)))).
  { intros s Hs. destruct (Hwf s _ Hs) as [h Hh].
    by rewrite fresh_loc_unused in Hh. }
  intros s1 s2 l. simpl.
  destruct (decide (sid = s1)) as [<-|H1], (decide (sid = s2)) as [<-|H2];
    rewrite ?lookup_insert_eq, ?lookup_insert_ne by done.
  - done.
  - intros [= <-] Hs. by destruct (Hfresh s2).
  - intros Hs [= <-]. by destruct (Hfresh s1).
  - apply Hinj.
Qed.

Lemma append_frame σ sid sid' m :
  store_wf σ → store_inj σ → sid' ≠ sid →
  history_of (append sid m σ).1 sid' = history_of σ sid' ∧
  store_wf (append sid m σ).1 ∧
  store_inj (append sid m σ).1.
Proof.
  intros Hwf Hinj Hne. rewrite append_eq.
  pose proof (store_wf_with_session σ sid Hwf) as Hwf'.
  pose proof (store_inj_with_session σ sid Hwf Hinj) as Hinj'.
  destruct (with_session_idem σ sid) as [_ Hsid].
  split; [|split].
  - rewrite <- (history_of_with_session σ sid sid').
    unfold history_of. simpl.
    destruct (st_session_history (with_session sid σ) !! sid') as [l'|] eqn:Hs'; [|done].
    rewrite lookup_alter_ne; [done|].
    intros Heq. apply Hne. apply (Hinj' sid' sid l'); [done|]. by rewrite <- Heq.
  - intros s l Hs. simpl in *. rewrite lookup_alter_is_Some. by apply (Hwf' s).
  - exact Hinj'.
Qed.

(** X14.  Sessions do not interfere: in a store where every session has
    its own object, appending any messages to one session leaves the
    history of every other session as it was, and the store stays such a
    store; a session created on the way gets an object of its own. *)
Theorem sessions_do_not_interfere
    (σ : state) (sid sid' : string) (ms : list Message) :
  store_wf σ →
  store_inj σ →
  sid' ≠ sid →
  history_of (append_all sid ms σ).1 sid' = history_of σ sid' ∧
  store_wf (append_all sid ms σ).1 ∧
  store_inj (append_all sid ms σ).1.
Proof.
  revert σ. induction ms as [|m ms IH]; intros σ Hwf Hinj Hne; [done|].
  destruct (append_frame σ sid sid' m Hwf Hinj Hne) as (Hh & Hwf1 & Hinj1).
  assert (Hstep : append_all sid (m :: ms) σ = append_all sid ms (append sid m σ).1).
  { simpl. unfold mbind, St_bind, st_bind. rewrite append_eq. reflexivity. }
  rewrite Hstep. destruct (IH _ Hwf1 Hinj1 Hne) as (Hh2 & Hwf2 & Hinj2).
  split; [congruence|done].
Qed.

Lemma store_inj_init : store_inj init_state.
Proof. intros s1 s2 l H. simpl in H. by rewrite lookup_empty in H. Qed.

Lemma sessions_do_not_interfere_witness :
  store_wf (append_all "s1" [mkMessage "user" "a"] init_state).1 ∧
  store_inj (append_all "s1" [mkMessage "user" "a"] init_state).1 ∧
  "s1" ≠ "s2" ∧
  history_of
    (append_all "s2" [mkMessage "user" "b"; mkMessage "assistant" "c"]
       (append_all "s1" [mkMessage "user" "a"] init_state).1).1 "s1"
  = history_of (append_all "s1" [mkMessage "user" "a"] init_state).1 "s1".
Proof.
  assert (Hne : "s0" ≠ "s1") by discriminate.
  destruct (sessions_do_not_interfere init_state "s1" "s0" [mkMessage "user" "a"]
              store_wf_init store_inj_init Hne) as (_ & Hwf & Hinj).
  assert (Hne' : "s1" ≠ "s2") by discriminate.
  split; [exact Hwf|]. split; [exact Hinj|]. split; [exact Hne'|].
  exact (proj1 (sessions_do_not_interfere _ "s2" "s1"
    [mkMessage "user" "b"; mkMessage "assistant" "c"] Hwf Hinj Hne')).
Defined.

(** X15.  Looking a session up twice is looking it up once: the second
    [get_session_history] hands back the same object as the first and
    changes nothing, so at most one object is ever created per id, and a
    lookup never alters the messages of any session. *)
Theorem get_session_history_idempotent (σ : state) (sid : string) :
  get_session_history sid (get_session_history sid σ).1 =
    ((get_session_history sid σ).1, (get_session_history sid σ).2) ∧
  (∀ sid', history_of (get_session_history sid σ).1 sid' = history_of σ sid') ∧
  st_messages (get_session_history sid σ).1 = st_messages σ.
Proof.
  rewrite (get_session_history_eq σ sid). simpl.
  destruct (with_session_idem σ sid) as [Hidem Hsid].
  split; [|split].
  - by rewrite (get_session_history_seen _ sid _ Hsid).
  - intros sid'. apply history_of_with_session.
  - apply st_messages_with_session.
Qed.


(** ** The rendering of the history, continued *)

(** X16.  The rendering of the history loses nothing: for a given user
    text, two different histories never make the same agent input,
    whatever quotes, backslashes, control characters, brackets or
    characters beyond ASCII (printable or not) the messages contain. *)
Theorem agent_input_determines_history (u : string) (h1 h2 : list Message) :
  h1 ≠ h2 → agent_input u h1 ≠ agent_input u h2.
Proof. intros Hne Heq. apply Hne. by apply (agent_input_inj u). Qed.

Lemma agent_input_determines_history_witness :
  [mkMessage "user" Runs.looks_like_two] ≠
  [mkMessage "user" Runs.with_nbsp; mkMessage "assistant" "b"] ∧
  agent_input "more" [mkMessage "user" Runs.looks_like_two] ≠
  agent_input "more" [mkMessage "user" Runs.with_nbsp; mkMessage "assistant" "b"].
Proof.
  assert (H : [mkMessage "user" Runs.looks_like_two] ≠
              [mkMessage "user" Runs.with_nbsp; mkMessage "assistant" "b"])
    by discriminate.
  split; [exact H|].
  exact (agent_input_determines_history "more" _ _ H).
Defined.

(** ** Runs of the script: what is stored only grows *)

Lemma main_no_reset_cases w i σ :
  reset_clicked i = false →
  (main w i σ).1 = σ ∨
  (main w i σ).1 = with_session session_id σ ∨
  ∃ u response, (main w i σ).1 = after_turn σ u response.
Proof.
  intros Hr. unfold main. rewrite Hr.
  destruct (nonempty (OPENAI_API i) && nonempty (SERPAPI_API i)); [|by left].
  unfold mbind, St_bind, st_bind, lift.
  destruct (build_tools w (pdf_docs i)) as [tools|e]; [|by left].
  destruct (user_input i) as [u|]; [|by left].
  destruct (nonempty u); [|by left].
  rewrite main_turn_eq.
  destruct (turn_response _ u _) as [response|e].
  - right; right. by exists u, response.
  - by right; left.
Qed.

(** X17.  Only a reset removes anything: in a run without reset, from a
    well-formed store, the display list and the history of the session
    before the run are prefixes of what they are after it, so no stored
    message is ever dropped, reordered or rewritten by a turn. *)
Theorem stored_messages_only_grow (w : world) (i : run_inputs) (σ : state) :
  store_wf σ →
  reset_clicked i = false →
  st_messages σ `prefix_of` st_messages (main w i σ).1 ∧
  history_of σ session_id `prefix_of` history_of (main w i σ).1 session_id ∧
  store_wf (main w i σ).1.
Proof.
  intros Hwf Hr.
  destruct (main_no_reset_cases w i σ Hr) as [->|[->|(u & response & ->)]].
  - done.
  - rewrite st_messages_with_session, history_of_with_session.
    split; [done|]. split; [done|]. by apply store_wf_with_session.
  - rewrite history_of_after_turn by done. simpl.
    rewrite st_messages_with_session, <- app_assoc.
    split; [by apply prefix_app_r|]. split; [by apply prefix_app_r|].
    intros sid l Hl. simpl in *.
    apply (store_wf_with_session σ session_id Hwf) in Hl.
    by rewrite !lookup_alter_is_Some.
Qed.

Lemma stored_messages_only_grow_witness :
  store_wf
    (main (Runs.world_of Runs.search_ok (λ _, Runs.answering)) (Runs.ask "hello")
       init_state).1 ∧
  reset_clicked (Runs.ask "more") = false ∧
  st_messages
    (main (Runs.world_of Runs.search_ok (λ _, Runs.answering)) (Runs.ask "hello")
       init_state).1
  = [mkMessage "user" "hello"; mkMessage "assistant" "hi there"] ∧
  [mkMessage "user" "hello"; mkMessage "assistant" "hi there"] `prefix_of`
    st_messages
      (main (Runs.world_of Runs.search_ok (λ _, Runs.failing)) (Runs.ask "more")
         (main (Runs.world_of Runs.search_ok (λ _, Runs.answering)) (Runs.ask "hello")
            init_state).1).1 ∧
  [mkMessage "user" "hello"; mkMessage "assistant" "hi there"] `prefix_of`
    history_of
      (main (Runs.world_of Runs.search_ok (λ _, Runs.echo)) (Runs.ask "more")
         (main (Runs.world_of Runs.search_ok (λ _, Runs.answering)) (Runs.ask "hello")
            init_state).1).1
      session_id.
Proof.
  assert (Hwf : store_wf
    (main (Runs.world_of Runs.search_ok (λ _, Runs.answering)) (Runs.ask "hello")
       init_state).1).
  { exact (proj2 (proj2 (stored_messages_only_grow
      (Runs.world_of Runs.search_ok (λ _, Runs.answering)) (Runs.ask "hello")
      init_state store_wf_init eq_refl))). }
  split; [exact Hwf|]. split; [reflexivity|]. split; [reflexivity|]. split.
  - exact (proj1 (stored_messages_only_grow
      (Runs.world_of Runs.search_ok (λ _, Runs.failing)) (Runs.ask "more")
      _ Hwf eq_refl)).
  - exact (proj1 (proj2 (stored_messages_only_grow
      (Runs.world_of Runs.search_ok (λ _, Runs.echo)) (Runs.ask "more")
      _ Hwf eq_refl))).
Defined.

(** ** The rendering at work *)

Example repr_beyond_ascii :
  (* U+00A0, no-break space: not printable *)
  Repr.repr_str Runs.with_nbsp = "'a\xa0'" ∧
  (* U+200D, zero width joiner: not printable *)
  Repr.repr_str
    (String "a" (String (ascii_of_nat 226) (String (ascii_of_nat 128)
       (String (ascii_of_nat 141) "b")))) = "'a\u200db'" ∧
  (* U+3000, ideographic space: not printable *)
  Repr.repr_str
    (String (ascii_of_nat 227) (String (ascii_of_nat 128)
       (String (ascii_of_nat 128) ""))) = "'\u3000'" ∧
  (* U+E0001, a tag character beyond the basic plane *)
  Repr.repr_str
    (String (ascii_of_nat 243) (String (ascii_of_nat 160)
       (String (ascii_of_nat 128) (String (ascii_of_nat 129) "")))) = "'\U000e0001'" ∧
  (* Korean text and an emoji are printable and copied *)
  Repr.repr_str "한글 😀" = "'한글 😀'" ∧
  (* a newline, a tab, a backslash and a control character *)
  Repr.repr_str
    (String (ascii_of_nat 10) (String (ascii_of_nat 9) (String (ascii_of_nat 92)
       (String (ascii_of_nat 1) "")))) = "'\n\t\\\x01'".
Proof. vm_compute. repeat split; reflexivity. Qed.

Example look_alike_histories_differ :
  Repr.str_list (map msg_dict [mkMessage "user" Runs.looks_like_two]) =
    "[{'role': 'user', 'content': " ++ String Repr.dquote
      "a\\xa0'}, {'role': 'assistant', 'content': 'b" ++ String Repr.dquote "}]" ∧
  Repr.str_list (map msg_dict [mkMessage "user" Runs.with_nbsp; mkMessage "assistant" "b"]) =
    "[{'role': 'user', 'content': 'a\xa0'}, {'role': 'assistant', 'content': 'b'}]".
Proof. vm_compute. split; reflexivity. Qed.
